(** * InkML converter wrapper: a shallow embedding and its specification

    The Python module [inkml_converter_wrapper.py] shells out to an external
    text-to-InkML converter and manages file names around that call.  This
    development embeds the module in Rocq:

    - Python [str] values are [string]s, with [rsplit], [split], [join] and
      [lstrip] written as structural recursions;
    - [pathlib] paths are their [parts] lists, parsed from strings the way
      [PurePosixPath] does;
    - the file system is a tree of directories (finite maps from component
      names to nodes), and the [os] calls the module makes are functions on
      that tree;
    - exceptions and side effects are threaded by a small state-and-error
      monad over a [World] (the file tree and the lines printed so far);
    - the external converter process and the directory scan order belong to
      the environment and are taken through two interfaces. *)

From stdpp Require Import gmap strings list fin_maps.
From Stdlib Require Import Ascii String ZArith Lia.

Open Scope string_scope.
Open Scope list_scope.

(** String concatenation is written [+:+] throughout; [++] is list append. *)

(** ** Python [str] operations *)

Module Str.

(** [s.rpartition(sep)] for a one-character separator: the text before and
    after the LAST occurrence of [sep], or [None] when [sep] does not occur. *)
Fixpoint rpartition (sep : ascii) (s : string) : option (string * string) :=
  match s with
  | EmptyString => None
  | String a r =>
      match rpartition sep r with
      | Some (h, t) => Some (String a h, t)
      | None => if Ascii.eqb a sep then Some (EmptyString, r) else None
      end
  end.

(** [s.rsplit(sep, 1)]: at most one split, taken from the right. *)
Definition rsplit1 (sep : ascii) (s : string) : list string :=
  match rpartition sep s with
  | Some (h, t) => [h; t]
  | None => [s]
  end.

(** [s.split(sep)]: every occurrence splits; the result is never empty. *)
Fixpoint split (sep : ascii) (s : string) : list string :=
  match s with
  | EmptyString => [EmptyString]
  | String a r =>
      if Ascii.eqb a sep then EmptyString :: split sep r
      else match split sep r with
           | h :: t => String a h :: t
           | [] => [String a EmptyString]
           end
  end.

(** [sep.join(l)]. *)
Fixpoint join (sep : string) (l : list string) : string :=
  match l with
  | [] => EmptyString
  | [x] => x
  | x :: r => x +:+ sep +:+ join sep r
  end.

(** [s.lstrip(c)] for a one-character set. *)
Fixpoint lstrip (c : ascii) (s : string) : string :=
  match s with
  | String a r => if Ascii.eqb a c then lstrip c r else s
  | EmptyString => EmptyString
  end.

(** [c in s]. *)
Fixpoint contains (c : ascii) (s : string) : bool :=
  match s with
  | EmptyString => false
  | String a r => Ascii.eqb a c || contains c r
  end.

(** [s.endswith(suffix)]. *)
Definition endswith (s suffix : string) : bool :=
  let n := String.length s in
  let k := String.length suffix in
  (k <=? n)%nat && String.eqb (substring (n - k) k s) suffix.

(** Python truthiness of a [str]: the empty string is falsy. *)
Definition truthy (s : string) : bool :=
  match s with EmptyString => false | String _ _ => true end.

End Str.

(** ** [pathlib.PurePosixPath]

    A path is its [parts] list, as [PurePosixPath.parts] gives it: the root
    (["/"] or ["//"]) first when the path is absolute, then the components.
    Parsing drops empty and ["."] components and keeps [".."] as written,
    exactly as pathlib does; two paths are equal when their parts are. *)

Module PurePath.

Definition t := list string.

Definition is_root (x : string) : bool :=
  String.eqb x "/" || String.eqb x "//".

Definition has_root (p : t) : bool :=
  match p with
  | r :: _ => is_root r
  | [] => false
  end.

(** [_PosixFlavour.splitroot]: one leading slash or three and more give the
    root ["/"], exactly two give ["//"]. *)
Definition splitroot (part : string) : string * string :=
  match part with
  | String a _ =>
      if Ascii.eqb a "/" then
        let stripped := Str.lstrip "/" part in
        if Nat.eqb (String.length part - String.length stripped) 2
        then ("//", stripped) else ("/", stripped)
      else ("", part)
  | EmptyString => ("", part)
  end.

(** The components [parse_parts] keeps: [if x and x != '.']. *)
Definition kept (x : string) : bool :=
  Str.truthy x && negb (String.eqb x ".").

(** [Path(s)]. *)
Definition Path (s : string) : t :=
  let '(root, rel) := splitroot s in
  (if Str.truthy root then [root] else []) ++ List.filter kept (Str.split "/" rel).

(** [str(p)]: the root followed by the components joined by ["/"], or ["."]
    for the empty path. *)
Definition str (p : t) : string :=
  match p with
  | [] => "."
  | r :: rest => if is_root r then r +:+ Str.join "/" rest else Str.join "/" p
  end.

(** [p.name]: the last component, empty for the root and the empty path. *)
Definition name (p : t) : string :=
  if Nat.eqb (List.length p) (if has_root p then 1 else 0) then ""
  else List.last p "".

(** [p.parent]. *)
Definition parent (p : t) : t :=
  if Nat.eqb (List.length p) (if has_root p then 1 else 0) then p
  else List.removelast p.

(** [p.suffix]: [i = name.rfind('.')], and [name[i:]] when
    [0 < i < len(name) - 1], else the empty string. *)
Definition suffix (p : t) : string :=
  match Str.rpartition "." (name p) with
  | Some (h, e) => if Str.truthy h && Str.truthy e then "." +:+ e else ""
  | None => ""
  end.

(** [p.with_suffix(sfx)]; [None] stands for the [ValueError] pathlib raises
    on an invalid suffix or on a path with an empty name. *)
Definition with_suffix (p : t) (sfx : string) : option t :=
  if Str.contains "/" sfx then None
  else if (Str.truthy sfx && negb (String.prefix "." sfx)) || String.eqb sfx "." then None
  else
    let nm := name p in
    if negb (Str.truthy nm) then None
    else
      let old_suffix := suffix p in
      let nm' :=
        if negb (Str.truthy old_suffix) then nm +:+ sfx
        else substring 0 (String.length nm - String.length old_suffix) nm +:+ sfx in
      Some (List.removelast p ++ [nm']).

(** [p / key]: an absolute [key] replaces [p]. *)
Definition truediv (p : t) (key : string) : t :=
  let q := Path key in
  if has_root q then q else p ++ q.

End PurePath.


(** ** Exceptions

    The exception classes the module can meet.  Every one of them is a
    subclass of Python's [Exception], so [except Exception] catches them
    all; [except subprocess.CalledProcessError] catches only the last but
    one. *)

Inductive exn :=
| FileNotFoundError (msg : string)
| FileExistsError (msg : string)
| NotADirectoryError (msg : string)
| IsADirectoryError (msg : string)
| OSError (msg : string)
| ValueError (msg : string)
| UnicodeEncodeError (msg : string)
| CalledProcessError (returncode : Z) (cmd : list string) (output stderr : string)
| Exception (msg : string).

(** [repr] of a list of strings, quotes not escaped. *)
Definition repr_cmd (cmd : list string) : string :=
  "[" +:+ Str.join ", " (List.map (fun a => "'" +:+ a +:+ "'") cmd) +:+ "]".

(** [str(e)], as an f-string interpolates it. *)
Definition exn_str (e : exn) : string :=
  match e with
  | FileNotFoundError msg | FileExistsError msg | NotADirectoryError msg
  | IsADirectoryError msg | OSError msg | ValueError msg | UnicodeEncodeError msg
  | Exception msg => msg
  | CalledProcessError rc cmd _ _ =>
      "Command '" +:+ repr_cmd cmd +:+ "' returned non-zero exit status "
        +:+ pretty.pretty rc +:+ "."
  end.

Inductive result (A : Type) :=
| Ok (a : A)
| Err (e : exn).

Arguments Ok {A} a.
Arguments Err {A} e.

(** ** The file system

    A directory maps component names to nodes.  The top-level map is the
    name space in which a parts list is resolved: a relative path starts at
    its entries, an absolute one at the entry named by its root.  Symbolic
    links and [".."] resolution are outside the model. *)

#[warnings="-register-all"]
Inductive node :=
| File (content : string)
| Dir (children : gmap string node).

Module FS.

Definition tree := gmap string node.

Fixpoint lookup_path (p : list string) (n : node) : option node :=
  match p with
  | [] => Some n
  | x :: p' =>
      match n with
      | Dir ch =>
          match ch !! x with
          | Some c => lookup_path p' c
          | None => None
          end
      | File _ => None
      end
  end.

(** Bind [p] to [v]; the parent of [p] has to be a directory. *)
Fixpoint put (p : list string) (v : node) (n : node) : option node :=
  match p with
  | [] => Some v
  | x :: p' =>
      match n with
      | Dir ch =>
          match p' with
          | [] => Some (Dir (<[x := v]> ch))
          | _ :: _ =>
              match ch !! x with
              | Some c =>
                  match put p' v c with
                  | Some c' => Some (Dir (<[x := c']> ch))
                  | None => None
                  end
              | None => None
              end
          end
      | File _ => None
      end
  end.

(** Drop the entry [p] from its parent directory. *)
Fixpoint unlink (p : list string) (n : node) : option node :=
  match p with
  | [] => None
  | x :: p' =>
      match n with
      | Dir ch =>
          match p' with
          | [] => Some (Dir (delete x ch))
          | _ :: _ =>
              match ch !! x with
              | Some c =>
                  match unlink p' c with
                  | Some c' => Some (Dir (<[x := c']> ch))
                  | None => None
                  end
              | None => None
              end
          end
      | File _ => None
      end
  end.

(** Make [p] and every missing ancestor a directory.  A regular file on the
    way is [ENOTDIR]; a regular file at [p] itself is [EEXIST]. *)
Fixpoint mkdirs (whole : string) (p : list string) (n : node) : result node :=
  match p, n with
  | [], Dir _ => Ok n
  | [], File _ => Err (FileExistsError ("[Errno 17] File exists: '" +:+ whole +:+ "'"))
  | _ :: _, File _ => Err (NotADirectoryError ("[Errno 20] Not a directory: '" +:+ whole +:+ "'"))
  | x :: p', Dir ch =>
      match mkdirs whole p' (default (Dir ∅) (ch !! x)) with
      | Ok c' => Ok (Dir (<[x := c']> ch))
      | Err e => Err e
      end
  end.

Definition children_of (n : node) (dflt : tree) : tree :=
  match n with
  | Dir ch => ch
  | File _ => dflt
  end.

Definition is_file (o : option node) : bool :=
  match o with Some (File _) => true | _ => false end.

Definition is_dir (o : option node) : bool :=
  match o with Some (Dir _) => true | _ => false end.

Definition is_empty_dir (o : option node) : bool :=
  match o with Some (Dir ch) => bool_decide (ch = ∅) | _ => false end.

End FS.

(** ** The world and the monad of effects

    A computation takes the world and gives a value or an exception together
    with the world it leaves.  Effects made before an exception stay. *)

Record World := mkWorld {
  files : gmap string node;
  stdout : list string
}.

Definition root_node (w : World) : node := Dir (files w).

Definition with_root (w : World) (n : node) : World :=
  mkWorld (FS.children_of n (files w)) (stdout w).

Definition M (A : Type) : Type := World -> result A * World.

Definition ret {A} (a : A) : M A := fun w => (Ok a, w).

Definition raise {A} (e : exn) : M A := fun w => (Err e, w).

Definition bind {A B} (m : M A) (k : A -> M B) : M B :=
  fun w =>
    match m w with
    | (Ok a, w') => k a w'
    | (Err e, w') => (Err e, w')
    end.

Notation "x <- m ;; k" := (bind m (fun x => k))
  (at level 100, m at next level, right associativity).
Notation "m ;;; k" := (bind m (fun _ => k))
  (at level 100, right associativity).

(** [try: body except <classes>: handler]: [handler e] is [None] when the
    clause does not match [e], which then propagates. *)
Definition try_except {A} (body : M A) (handler : exn -> option (M A)) : M A :=
  fun w =>
    match body w with
    | (Ok a, w') => (Ok a, w')
    | (Err e, w') =>
        match handler e with
        | Some h => h w'
        | None => (Err e, w')
        end
    end.

(** [try: body finally: cleanup]: the cleanup runs on both exits, and an
    exception it raises replaces the outcome of the body. *)
Definition try_finally {A} (body : M A) (cleanup : M unit) : M A :=
  fun w =>
    match body w with
    | (r, w') =>
        match cleanup w' with
        | (Ok _, w'') => (r, w'')
        | (Err e, w'') => (Err e, w'')
        end
    end.

(** [print(line)]. *)
Definition print (line : string) : M unit :=
  fun w => (Ok tt, mkWorld (files w) (stdout w ++ [line])).

(** ** The [os], [pathlib] and [tempfile] calls the module makes *)

Module OS.

(** How the kernel reads a path string: the empty string names nothing. *)
Definition resolve (s : string) : option PurePath.t :=
  if Str.truthy s then Some (PurePath.Path s) else None.

Definition stat (s : string) (w : World) : option node :=
  match resolve s with
  | Some p => FS.lookup_path p (root_node w)
  | None => None
  end.

Definition enoent (s : string) : exn :=
  FileNotFoundError ("[Errno 2] No such file or directory: '" +:+ s +:+ "'").

(** [os.path.exists(s)]. *)
Definition path_exists (s : string) : M bool :=
  fun w => (Ok (bool_decide (is_Some (stat s w))), w).

(** [os.remove(s)]: unlinks a regular file. *)
Definition remove (s : string) : M unit :=
  fun w =>
    match resolve s, stat s w with
    | Some p, Some (File _) =>
        match FS.unlink p (root_node w) with
        | Some n => (Ok tt, with_root w n)
        | None => (Err (OSError ("[Errno 16] Device or resource busy: '" +:+ s +:+ "'")), w)
        end
    | _, Some (Dir _) => (Err (IsADirectoryError ("[Errno 21] Is a directory: '" +:+ s +:+ "'")), w)
    | _, _ => (Err (enoent s), w)
    end.

Definition is_prefix_of (p q : PurePath.t) : bool :=
  bool_decide (List.firstn (List.length p) q = p).

(** [os.rename(src, dst)] after rename(2): the source has to exist and the
    parent of the destination has to be a directory; a file replaces a file,
    a directory replaces an empty directory, and a directory does not move
    below itself. *)
Definition rename (src dst : string) : M unit :=
  fun w =>
    let fail e := (Err e, w) in
    let both := src +:+ "' -> '" +:+ dst in
    match resolve src, resolve dst with
    | Some ps, Some pd =>
        match FS.lookup_path ps (root_node w) with
        | None => fail (enoent both)
        | Some v =>
            if bool_decide (ps = pd) then (Ok tt, w)
            else if bool_decide (ps = []) || bool_decide (pd = []) then
              fail (OSError ("[Errno 16] Device or resource busy: '" +:+ both +:+ "'"))
            else
              let target := FS.lookup_path pd (root_node w) in
              match FS.lookup_path (List.removelast pd) (root_node w) with
              | None => fail (enoent both)
              | Some (File _) =>
                  fail (NotADirectoryError ("[Errno 20] Not a directory: '" +:+ both +:+ "'"))
              | Some (Dir _) =>
                  let blocked :=
                    match v with
                    | File _ =>
                        if FS.is_dir target
                        then Some (IsADirectoryError ("[Errno 21] Is a directory: '" +:+ both +:+ "'"))
                        else None
                    | Dir _ =>
                        if is_prefix_of ps pd
                        then Some (OSError ("[Errno 22] Invalid argument: '" +:+ both +:+ "'"))
                        else if FS.is_file target
                        then Some (NotADirectoryError ("[Errno 20] Not a directory: '" +:+ both +:+ "'"))
                        else if FS.is_dir target && negb (FS.is_empty_dir target)
                        then Some (OSError ("[Errno 39] Directory not empty: '" +:+ both +:+ "'"))
                        else None
                    end in
                  match blocked with
                  | Some e => fail e
                  | None =>
                      match FS.unlink ps (root_node w) with
                      | Some n1 =>
                          match FS.put pd v n1 with
                          | Some n2 => (Ok tt, with_root w n2)
                          | None => fail (enoent both)
                          end
                      | None => fail (enoent both)
                      end
                  end
              end
        end
    | _, _ => fail (enoent both)
    end.

(** [p.exists()] of pathlib: the empty path is the current directory. *)
Definition Path_exists (p : PurePath.t) : M bool :=
  fun w => (Ok (bool_decide (is_Some (FS.lookup_path p (root_node w)))), w).

(** [p.mkdir(parents=True, exist_ok=True)]. *)
Definition mkdir_parents_exist_ok (p : PurePath.t) : M unit :=
  fun w =>
    match FS.mkdirs (PurePath.str p) p (root_node w) with
    | Ok n => (Ok tt, with_root w n)
    | Err e => (Err e, w)
    end.

End OS.

(** ** The environment

    What the module does not decide itself: what the converter process does
    to the file system and how it exits, in which order a recursive glob
    yields its matches, which name [tempfile] picks, whether a text can be
    written to a text file ([write_error] gives the exception that
    [file.write] raises for it, such as the [UnicodeEncodeError] for text
    that the encoding of the locale cannot represent), and where the module
    file lives ([__file__]).  A process either exits with a status and its
    two captured streams, or cannot be started, which [subprocess.run]
    reports as an [OSError]. *)

Inductive proc_outcome :=
| Exited (returncode : Z) (out err : string)
| NotStarted (reason : string).

Class Environment := {
  run_process : list string -> gmap string node -> proc_outcome * gmap string node;
  scan : gmap string node -> PurePath.t -> string -> list PurePath.t;
  mkstemp_name : gmap string node -> string -> string;
  write_error : string -> option exn;
  module_file : string
}.

Record CompletedProcess := mkCompleted {
  args : list string;
  cp_returncode : Z;
  cp_stdout : string;
  cp_stderr : string
}.

Record InkMLConverter := mkConverter {
  converter_script : string
}.

Section Wrapper.

Context {env : Environment}.

(** [subprocess.run(args, capture_output=True, text=True, check=True)]. *)
Definition subprocess_run (cmd : list string) : M CompletedProcess :=
  fun w =>
    match run_process cmd (files w) with
    | (Exited rc out err, fs') =>
        let w' := mkWorld fs' (stdout w) in
        if Z.eqb rc 0 then (Ok (mkCompleted cmd rc out err), w')
        else (Err (CalledProcessError rc cmd out err), w')
    | (NotStarted reason, fs') => (Err (OSError reason), mkWorld fs' (stdout w))
    end.

(** [input_path.rglob(pattern)], taken as the list it yields. *)
Definition rglob (p : PurePath.t) (pattern : string) : M (list PurePath.t) :=
  fun w => (Ok (scan (files w) p pattern), w).

(** [tempfile.NamedTemporaryFile(mode='w', suffix=sfx, delete=False)]: an
    empty file is created exclusively under a name of [tempfile]'s choice,
    and stays when it is closed. *)
Definition NamedTemporaryFile (sfx : string) : M string :=
  fun w =>
    let nm := mkstemp_name (files w) sfx in
    match OS.resolve nm with
    | Some p =>
        match FS.lookup_path p (root_node w) with
        | Some _ => (Err (FileExistsError "[Errno 17] No usable temporary file name found"), w)
        | None =>
            match FS.put p (File EmptyString) (root_node w) with
            | Some n => (Ok nm, with_root w n)
            | None => (Err (OS.enoent nm), w)
            end
        end
    | None => (Err (OS.enoent nm), w)
    end.

(** [temp_file.write(content)] on the file just created: a text that
    cannot be written raises and leaves the file as it is. *)
Definition file_write (nm content : string) : M unit :=
  fun w =>
    match write_error content with
    | Some e => (Err e, w)
    | None =>
        match OS.resolve nm with
        | Some p =>
            match FS.put p (File content) (root_node w) with
            | Some n => (Ok tt, with_root w n)
            | None => (Err (OS.enoent nm), w)
            end
        | None => (Err (OS.enoent nm), w)
        end
    end.

(** [with tempfile.NamedTemporaryFile(mode='w', suffix=sfx, delete=False) as f:
    f.write(content); name = f.name]: the file is created, then written;
    an exception of the write leaves the block with the file still there. *)
Definition NamedTemporaryFile_write (sfx content : string) : M string :=
  temp_file <- NamedTemporaryFile sfx ;;
  file_write temp_file content ;;;
  ret temp_file.

(** [a or b] on strings, [None] being falsy as well. *)
Definition py_or (a : option string) (b : string) : string :=
  match a with
  | Some s => if Str.truthy s then s else b
  | None => b
  end.

(** [txt_file_path.rsplit('.', 1)[0] + '.inkml'] *)
Definition inkml_path_of (txt_file_path : string) : string :=
  List.nth 0 (Str.rsplit1 "." txt_file_path) "" +:+ ".inkml".

Definition __init__ (converter_script_path : option string) : M InkMLConverter :=
  let script_dir := PurePath.parent (PurePath.Path module_file) in
  let script :=
    py_or converter_script_path
          (PurePath.str (PurePath.truediv script_dir "convert_txt_to_inkml.ts")) in
  found <- OS.Path_exists (PurePath.Path script) ;;
  if negb found
  then raise (FileNotFoundError ("Converter script not found: " +:+ script))
  else ret (mkConverter script).

Definition convert_txt_to_inkml (self : InkMLConverter) (txt_file_path : string) : M string :=
  try_except
    (result <- subprocess_run ["npx"; "tsx"; converter_script self; txt_file_path] ;;
     let inkml_file_path := inkml_path_of txt_file_path in
     ret inkml_file_path)
    (fun e =>
       match e with
       | CalledProcessError _ _ _ stderr =>
           Some (raise (Exception ("Conversion failed: " +:+ stderr)))
       | _ => None
       end).

Definition convert_from_string (self : InkMLConverter) (txt_content : string)
    (output_filename : option string) : M string :=
  temp_file_path <- NamedTemporaryFile_write ".txt" txt_content ;;
  try_finally
    (inkml_path <- convert_txt_to_inkml self temp_file_path ;;
     match output_filename with
     | Some label =>
         if Str.truthy label then
           let new_inkml_path :=
             List.nth 0 (Str.rsplit1 "." temp_file_path) "" +:+ "_" +:+ label +:+ ".inkml" in
           OS.rename inkml_path new_inkml_path ;;;
           ret new_inkml_path
         else ret inkml_path
     | None => ret inkml_path
     end)
    (present <- OS.path_exists temp_file_path ;;
     if present then OS.remove temp_file_path else ret tt).

(** The body of the [for] loop of [batch_convert_directory]: one [try]
    statement, whose [except Exception] clause prints and goes on. *)
Definition batch_body (self : InkMLConverter) (input_path output_path : PurePath.t)
    (inkml_files : list string) (txt_file : PurePath.t) : M (list string) :=
  try_except
    (inkml_file <- convert_txt_to_inkml self (PurePath.str txt_file) ;;
     if negb (bool_decide (output_path = input_path)) then
       match PurePath.with_suffix txt_file ".inkml" with
       | Some renamed =>
           let final_path := PurePath.truediv output_path (PurePath.name renamed) in
           OS.rename inkml_file (PurePath.str final_path) ;;;
           ret (inkml_files ++ [PurePath.str final_path])
       | None =>
           raise (ValueError (PurePath.str txt_file +:+ " has an empty name"))
       end
     else ret (inkml_files ++ [inkml_file]))
    (fun e =>
       Some (print ("Failed to convert " +:+ PurePath.str txt_file +:+ ": " +:+ exn_str e) ;;;
             ret inkml_files)).

Fixpoint for_each {A S : Type} (items : list A) (acc : S) (body : S -> A -> M S) : M S :=
  match items with
  | [] => ret acc
  | x :: rest => acc' <- body acc x ;; for_each rest acc' body
  end.

(** What the [try] body of the loop does for one file, without the list it
    appends to: the path it would append, or the exception it would print. *)
Definition attempt (self : InkMLConverter) (input_path output_path : PurePath.t)
    (txt_file : PurePath.t) : M string :=
  inkml_file <- convert_txt_to_inkml self (PurePath.str txt_file) ;;
  if negb (bool_decide (output_path = input_path)) then
    match PurePath.with_suffix txt_file ".inkml" with
    | Some renamed =>
        let final_path := PurePath.truediv output_path (PurePath.name renamed) in
        OS.rename inkml_file (PurePath.str final_path) ;;;
        ret (PurePath.str final_path)
    | None => raise (ValueError (PurePath.str txt_file +:+ " has an empty name"))
    end
  else ret inkml_file.

(** The outcome of every discovered file, in discovery order, each attempt
    starting in the world the previous one left (a failed attempt prints its
    message first). *)
Fixpoint batch_trace (self : InkMLConverter) (input_path output_path : PurePath.t)
    (txt_files : list PurePath.t) (w : World) : list (PurePath.t * result string) * World :=
  match txt_files with
  | [] => ([], w)
  | f :: rest =>
      let '(r, w1) := attempt self input_path output_path f w in
      let w2 :=
        match r with
        | Ok _ => w1
        | Err e =>
            mkWorld (files w1)
              (stdout w1 ++ ["Failed to convert " +:+ PurePath.str f +:+ ": " +:+ exn_str e])
        end in
      let '(tr, w3) := batch_trace self input_path output_path rest w2 in
      ((f, r) :: tr, w3)
  end.

Definition batch_convert_directory (self : InkMLConverter) (input_dir : string)
    (output_dir : option string) : M (list string) :=
  let input_path := PurePath.Path input_dir in
  let output_path :=
    match output_dir with
    | Some o => if Str.truthy o then PurePath.Path o else input_path
    | None => input_path
    end in
  OS.mkdir_parents_exist_ok output_path ;;;
  txt_files <- rglob input_path "*.txt" ;;
  for_each txt_files [] (batch_body self input_path output_path).

End Wrapper.

(** The output paths of the files that went through, and the messages of
    the files that did not, both in the order of the trace. *)
Definition converted (tr : list (PurePath.t * result string)) : list string :=
  List.flat_map (fun fr => match snd fr with Ok p => [p] | Err _ => [] end) tr.





(** The two derivations of an output name that the module uses agree on
    [p]: the name of [p.with_suffix('.inkml')], used when an output file is
    relocated, and the name of the path [convert_txt_to_inkml] returns for
    [str(p)]. *)
Definition names_agree (p : PurePath.t) : Prop :=
  option_map PurePath.name (PurePath.with_suffix p ".inkml")
  = Some (PurePath.name (PurePath.Path (inkml_path_of (PurePath.str p)))).

(** Well-formed parts: a root only in front, and every other component
    non-empty, not ["."] and free of ["/"]; what [Path] produces. *)
Definition component (x : string) : bool :=
  PurePath.kept x && negb (Str.contains "/" x).

Definition wf_path (p : PurePath.t) : bool :=
  match p with
  | [] => true
  | r :: rest => (PurePath.is_root r || component r) && List.forallb component rest
  end.


Section Steps.

Context {env : Environment}.







End Steps.

(** Two paths of which neither continues the other part ways at some
    component. *)
Inductive diverge : list string -> list string -> Prop :=
| diverge_here x y p q : x <> y -> diverge (x :: p) (y :: q)
| diverge_later x p q : diverge p q -> diverge (x :: p) (x :: q).

(** ** A reference environment

    A stand-in converter that behaves as the real one is expected to: it
    reads the file named by its last argument and, when that is a non-empty
    regular file, writes the sibling [.inkml] file and exits with 0; anything
    else makes it exit with 1 and a diagnostic on its error stream.  The
    scan walks the tree in the key order of the maps. *)

Module Demo.

Definition run (cmd : list string) (fs : gmap string node) : proc_outcome * gmap string node :=
  match cmd with
  | [_; _; _; path] =>
      match FS.lookup_path (PurePath.Path path) (Dir fs) with
      | Some (File (String c rest)) =>
          match FS.put (PurePath.Path (inkml_path_of path))
                       (File ("<ink>" +:+ String c rest +:+ "</ink>")) (Dir fs) with
          | Some n => (Exited 0 "ok" "", FS.children_of n fs)
          | None => (Exited 1 "" "cannot write output", fs)
          end
      | Some (File EmptyString) => (Exited 1 "" "no strokes in input", fs)
      | _ => (Exited 1 "" "cannot read input", fs)
      end
  | _ => (NotStarted "[Errno 2] No such file or directory: 'npx'", fs)
  end.

(** A converter that reports success and writes nothing. *)
Definition run_silent (cmd : list string) (fs : gmap string node) : proc_outcome * gmap string node :=
  (Exited 0 "" "", fs).

(** [fnmatch] for the one shape of pattern the module uses, ["*<literal>"]. *)
Definition matches (pattern nm : string) : bool :=
  match pattern with
  | String "*" lit => Str.endswith nm lit
  | _ => String.eqb pattern nm
  end.

Fixpoint walk (pattern : string) (n : node) (here : PurePath.t) : list PurePath.t :=
  match n with
  | File _ => []
  | Dir ch =>
      map_fold
        (fun k c acc =>
           (if matches pattern k then [here ++ [k]] else [])
             ++ walk pattern c (here ++ [k]) ++ acc)
        [] ch
  end.

Definition scan_tree (fs : gmap string node) (p : PurePath.t) (pattern : string) : list PurePath.t :=
  match FS.lookup_path p (Dir fs) with
  | Some n => walk pattern n p
  | None => []
  end.

Definition env : Environment := {|
  run_process := run;
  scan := scan_tree;
  mkstemp_name := fun _ sfx => "/tmp/tmpk3v9x2ab" +:+ sfx;
  write_error := fun _ => None;
  module_file := "/srv/app/inkml_converter_wrapper.py"
|}.

Definition env_silent : Environment := {|
  run_process := run_silent;
  scan := scan_tree;
  mkstemp_name := fun _ sfx => "/tmp/tmpk3v9x2ab" +:+ sfx;
  write_error := fun _ => None;
  module_file := "/srv/app/inkml_converter_wrapper.py"
|}.

(** A small tree: the application under [/srv/app], an empty [/tmp], and a
    relative [data] directory with two good inputs and an empty one. *)
Definition fs0 : gmap string node :=
  {[ "/" := Dir {[ "srv" := Dir {[ "app" := Dir {[ "convert_txt_to_inkml.ts" := File "ts";
                                                   "inkml_converter_wrapper.py" := File "py" ]} ]};
                   "tmp" := Dir ∅ ]};
     "data" := Dir {[ "a.txt" := File "1 2";
                      "sub" := Dir {[ "b.txt" := File ""; "c.txt" := File "3 4" ]} ]} ]}.

Definition w0 : World := mkWorld fs0 [].

Definition conv : InkMLConverter := mkConverter "/srv/app/convert_txt_to_inkml.ts".

End Demo.

(** Two more settings: an environment in which the converter cannot be
    started, and a tree with two inputs of the same name. *)

Module Scenarios.

Definition env_no_npx : Environment := {|
  run_process := fun _ fs => (NotStarted "[Errno 2] No such file or directory: 'npx'", fs);
  scan := Demo.scan_tree;
  mkstemp_name := fun _ sfx => "/tmp/tmpk3v9x2ab" +:+ sfx;
  write_error := fun _ => None;
  module_file := "/srv/app/inkml_converter_wrapper.py"
|}.

Definition fs_twins : gmap string node :=
  {[ "data" := Dir {[ "x" := Dir {[ "n.txt" := File "1 2" ]};
                      "y" := Dir {[ "n.txt" := File "3 4" ]} ]} ]}.

Definition w_twins : World := mkWorld fs_twins [].

(** A locale whose encoding is ASCII: text with any other character
    cannot be written to a text file. *)
Definition ascii_only (content : string) : bool :=
  List.forallb (fun a => (Ascii.N_of_ascii a <? 128)%N) (list_ascii_of_string content).

Definition env_ascii : Environment := {|
  run_process := Demo.run;
  scan := Demo.scan_tree;
  mkstemp_name := fun _ sfx => "/tmp/tmpk3v9x2ab" +:+ sfx;
  write_error := fun content =>
    if ascii_only content then None
    else Some (UnicodeEncodeError "'ascii' codec can't encode character");
  module_file := "/srv/app/inkml_converter_wrapper.py"
|}.

(** Text with one character outside ASCII. *)
Definition latin_text : string := "caf" +:+ String (Ascii.ascii_of_nat 233) "".



End Scenarios.

(** * Properties *)

(** ** The embedding at work *)

Example Path_samples :
  PurePath.Path "/a//b/./c.txt" = ["/"; "a"; "b"; "c.txt"] /\
  PurePath.Path "//x/y/" = ["//"; "x"; "y"] /\
  PurePath.Path "///x" = ["/"; "x"] /\
  PurePath.Path "" = [] /\ PurePath.Path "./" = [] /\
  PurePath.str (PurePath.Path "a/../b/") = "a/../b" /\
  PurePath.with_suffix ["d"; "f.tar.gz"] ".inkml" = Some ["d"; "f.tar.inkml"] /\
  PurePath.with_suffix ["d"; ".txt"] ".inkml" = Some ["d"; ".txt.inkml"] /\
  PurePath.with_suffix ["d"; "a."] ".inkml" = Some ["d"; "a..inkml"] /\
  PurePath.with_suffix ["/"] ".inkml" = None.
Proof. repeat split; reflexivity. Qed.

Example rsplit_samples :
  Str.rsplit1 "." "dir/notes.v2.txt" = ["dir/notes.v2"; "txt"] /\
  Str.rsplit1 "." "notes" = ["notes"] /\
  inkml_path_of "dir/notes.v2.txt" = "dir/notes.v2.inkml" /\
  inkml_path_of "notes" = "notes.inkml".
Proof. repeat split; reflexivity. Qed.

(** The reference environment: the constructor finds the default script,
    and a batch over [data] converts two files and reports the empty one. *)
Example demo_run :
  fst (@__init__ Demo.env None Demo.w0)
    = Ok (mkConverter "/srv/app/convert_txt_to_inkml.ts") /\
  fst (@batch_convert_directory Demo.env Demo.conv "data" None Demo.w0)
    = Ok ["data/sub/c.inkml"; "data/a.inkml"] /\
  fst (@batch_convert_directory Demo.env Demo.conv "data" (Some "out/x") Demo.w0)
    = Ok ["out/x/c.inkml"; "out/x/a.inkml"].
Proof. repeat split; vm_compute; reflexivity. Qed.

(** When an output directory is given, a failed move is a failure of that
    file like any other: with a converter that exits with 0 and writes
    nothing, every [os.rename] raises, every file is reported and the list
    stays empty. *)
Example failed_move_is_reported :
  let '(r, w) :=
    @batch_convert_directory Demo.env_silent Demo.conv "data" (Some "out/x") Demo.w0 in
  r = Ok [] /\ List.length (stdout w) = 3.
Proof. vm_compute. split; reflexivity. Qed.


(** ** Strings *)

Module StrFacts.

Lemma app_cons a s t : String a s +:+ t = String a (s +:+ t).
Proof. reflexivity. Qed.

Lemma app_nil_l s : "" +:+ s = s.
Proof. reflexivity. Qed.

Lemma app_nil_r s : s +:+ "" = s.
Proof. induction s as [|a s IH]; [reflexivity|]. now rewrite app_cons, IH. Qed.

Lemma app_assoc s t u : (s +:+ t) +:+ u = s +:+ (t +:+ u).
Proof. induction s as [|a s IH]; [reflexivity|]. now rewrite !app_cons, IH. Qed.

Lemma length_app s t : String.length (s +:+ t) = String.length s + String.length t.
Proof. induction s as [|a s IH]; [reflexivity|]. rewrite app_cons. cbn. now rewrite IH. Qed.

Lemma contains_app c s t :
  Str.contains c (s +:+ t) = Str.contains c s || Str.contains c t.
Proof.
  induction s as [|a s IH]; [reflexivity|].
  rewrite app_cons. cbn. rewrite IH. now rewrite orb_assoc.
Qed.

Lemma truthy_app_r s t : Str.truthy t = true -> Str.truthy (s +:+ t) = true.
Proof. destruct s; [now rewrite app_nil_l | reflexivity]. Qed.

Lemma substring_prefix s t : substring 0 (String.length s) (s +:+ t) = s.
Proof.
  induction s as [|a s IH]; [now destruct t|].
  rewrite app_cons. cbn. now rewrite IH.
Qed.

Lemma rpartition_none c s : Str.contains c s = false -> Str.rpartition c s = None.
Proof.
  induction s as [|a s IH]; [reflexivity|]. cbn.
  intros [Ha Hs]%orb_false_iff. now rewrite (IH Hs), Ha.
Qed.

(** The last separator of [s ++ sep ++ t], for [t] free of it, is the one
    written out. *)
Lemma rpartition_last c s t :
  Str.contains c t = false -> Str.rpartition c (s +:+ String c t) = Some (s, t).
Proof.
  intros Ht. induction s as [|a s IH].
  - rewrite app_nil_l. cbn. now rewrite (rpartition_none _ _ Ht), Ascii.eqb_refl.
  - rewrite app_cons. cbn. now rewrite IH.
Qed.

Lemma rpartition_inv c s h t :
  Str.rpartition c s = Some (h, t) -> s = h +:+ String c t /\ Str.contains c t = false.
Proof.
  revert h. induction s as [|a s IH]; intros h; [discriminate|]. cbn.
  destruct (Str.rpartition c s) as [[h' t']|] eqn:E.
  - intros [= <- <-]. destruct (IH _ eq_refl) as [-> Ht]. now rewrite app_cons.
  - destruct (Ascii.eqb_spec a c) as [->|]; [|discriminate].
    intros [= <- <-]. split; [reflexivity|].
    clear IH. induction s as [|b s IHs]; [reflexivity|].
    cbn in E |- *. destruct (Str.rpartition c s) as [[? ?]|]; [discriminate|].
    destruct (Ascii.eqb b c); [discriminate|]. now apply IHs.
Qed.

Lemma split_nosep c s : Str.contains c s = false -> Str.split c s = [s].
Proof.
  induction s as [|a s IH]; [reflexivity|]. cbn.
  intros [Ha Hs]%orb_false_iff. now rewrite Ha, (IH Hs).
Qed.

Lemma split_app_sep c s t :
  Str.contains c s = false -> Str.split c (s +:+ String c t) = s :: Str.split c t.
Proof.
  induction s as [|a s IH]; intros H.
  - rewrite app_nil_l. cbn. now rewrite Ascii.eqb_refl.
  - cbn in H. apply orb_false_iff in H as [Ha Hs].
    rewrite app_cons. cbn. now rewrite Ha, (IH Hs).
Qed.

Lemma split_join c l :
  l <> [] -> List.forallb (fun x => negb (Str.contains c x)) l = true ->
  Str.split c (Str.join (String c "") l) = l.
Proof.
  induction l as [|x l IH]; [congruence|]. intros _ H.
  cbn in H. apply andb_true_iff in H as [Hx Hl]. apply negb_true_iff in Hx.
  destruct l as [|y l]; [now apply split_nosep|].
  change (Str.join (String c "") (x :: y :: l))
    with (x +:+ String c (Str.join (String c "") (y :: l))).
  rewrite split_app_sep by assumption. f_equal. now apply IH.
Qed.

Lemma lstrip_id c s :
  match s with String a _ => Ascii.eqb a c = false | EmptyString => True end ->
  Str.lstrip c s = s.
Proof. destruct s as [|a s]; [reflexivity|]. cbn. now intros ->. Qed.

End StrFacts.

(** ** Paths *)

Module PathFacts.

Import StrFacts.

Lemma component_inv x :
  component x = true ->
  Str.truthy x = true /\ x <> "." /\ Str.contains "/" x = false.
Proof.
  unfold component, PurePath.kept.
  intros [[Ht Hd]%andb_true_iff Hs]%andb_true_iff.
  apply negb_true_iff in Hd, Hs. apply String.eqb_neq in Hd. auto.
Qed.

Lemma component_intro x :
  Str.truthy x = true -> x <> "." -> Str.contains "/" x = false -> component x = true.
Proof.
  intros Ht Hd Hs. unfold component, PurePath.kept. rewrite Ht, Hs.
  apply String.eqb_neq in Hd. now rewrite Hd.
Qed.

Lemma component_not_root x : component x = true -> PurePath.is_root x = false.
Proof.
  intros (_ & _ & Hs)%component_inv. unfold PurePath.is_root.
  apply orb_false_iff. split; apply String.eqb_neq; intros ->; discriminate.
Qed.

Lemma component_head x :
  component x = true -> exists a r, x = String a r /\ Ascii.eqb a "/" = false.
Proof.
  intros (Ht & _ & Hs)%component_inv. destruct x as [|a r]; [discriminate|].
  exists a, r. split; [reflexivity|]. cbn in Hs. now apply orb_false_iff in Hs as [? _].
Qed.

(** A name made of a slash-free stem and an extension is a component. *)
Lemma component_ext stem ext :
  Str.contains "/" stem = false -> Str.contains "/" ext = false ->
  (2 <= String.length ext) -> component (stem +:+ ext) = true.
Proof.
  intros Hs He Hl. apply component_intro.
  - apply truthy_app_r. destruct ext; [cbn in Hl; lia | reflexivity].
  - intros E. apply (f_equal String.length) in E. rewrite length_app in E. cbn in E. lia.
  - now rewrite contains_app, Hs, He.
Qed.

Lemma join_snoc sep l x :
  l <> [] -> Str.join sep (l ++ [x]) = Str.join sep l +:+ sep +:+ x.
Proof.
  induction l as [|y l IH]; [congruence|]. intros _.
  destruct l as [|z l]; [reflexivity|].
  change (Str.join sep ((y :: z :: l) ++ [x]))
    with (y +:+ sep +:+ Str.join sep ((z :: l) ++ [x])).
  rewrite IH by discriminate.
  change (Str.join sep (y :: z :: l)) with (y +:+ sep +:+ Str.join sep (z :: l)).
  now rewrite !app_assoc.
Qed.

(** The string of a path that ends in the component [nm] is a prefix that
    depends on the directory only, followed by [nm]. *)
Lemma str_snoc (d : PurePath.t) :
  exists pre, forall nm, component nm = true -> PurePath.str (d ++ [nm]) = pre +:+ nm.
Proof.
  destruct d as [|r rest].
  - exists "". intros nm Hc. cbn. now rewrite (component_not_root _ Hc).
  - cbn [PurePath.str app]. destruct (PurePath.is_root r).
    + destruct rest as [|y rest].
      * exists r. reflexivity.
      * exists (r +:+ Str.join "/" (y :: rest) +:+ "/"). intros nm _.
        rewrite (join_snoc "/" (y :: rest) nm) by discriminate. now rewrite !app_assoc.
    + exists (Str.join "/" (r :: rest) +:+ "/"). intros nm _.
      change (r :: rest ++ [nm]) with ((r :: rest) ++ [nm]).
      rewrite join_snoc by discriminate. now rewrite !app_assoc.
Qed.

Lemma wf_snoc d nm :
  wf_path d = true -> component nm = true -> wf_path (d ++ [nm]) = true.
Proof.
  intros Hd Hc. destruct d as [|r rest]; cbn in *.
  - now rewrite Hc, orb_true_r.
  - apply andb_true_iff in Hd as [-> Hr]. cbn.
    rewrite forallb_app, Hr. cbn. now rewrite Hc.
Qed.

Lemma name_snoc d nm : component nm = true -> PurePath.name (d ++ [nm]) = nm.
Proof.
  intros Hc. unfold PurePath.name.
  destruct d as [|r rest].
  - cbn. now rewrite (component_not_root _ Hc).
  - replace (List.length ((r :: rest) ++ [nm]) =? _)%nat with false.
    + apply last_last.
    + symmetry. apply Nat.eqb_neq. rewrite List.length_app. cbn.
      destruct (PurePath.is_root r); lia.
Qed.

Lemma parent_snoc d nm : component nm = true -> PurePath.parent (d ++ [nm]) = d.
Proof.
  intros Hc. unfold PurePath.parent.
  destruct d as [|r rest].
  - cbn. now rewrite (component_not_root _ Hc).
  - replace (List.length ((r :: rest) ++ [nm]) =? _)%nat with false.
    + apply removelast_last.
    + symmetry. apply Nat.eqb_neq. rewrite List.length_app. cbn.
      destruct (PurePath.is_root r); lia.
Qed.

Lemma filter_kept_components l :
  List.forallb component l = true -> List.filter PurePath.kept l = l.
Proof.
  induction l as [|x l IH]; [reflexivity|]. cbn.
  intros [Hx Hl]%andb_true_iff. unfold component in Hx.
  apply andb_true_iff in Hx as [-> _]. now rewrite IH.
Qed.

Lemma components_slash_free l :
  List.forallb component l = true ->
  List.forallb (fun x => negb (Str.contains "/" x)) l = true.
Proof.
  induction l as [|x l IH]; [reflexivity|]. cbn.
  intros [Hx Hl]%andb_true_iff. unfold component in Hx.
  apply andb_true_iff in Hx as [_ ->]. now rewrite IH.
Qed.

Lemma parse_components l :
  List.forallb component l = true ->
  List.filter PurePath.kept (Str.split "/" (Str.join "/" l)) = l.
Proof.
  intros Hl. destruct l as [|x l]; [reflexivity|].
  rewrite split_join; [now apply filter_kept_components | discriminate |].
  now apply components_slash_free.
Qed.

Lemma join_head l :
  List.forallb component l = true ->
  match Str.join "/" l with
  | String a _ => Ascii.eqb a "/" = false
  | EmptyString => True
  end.
Proof.
  destruct l as [|x l]; [exact (fun _ => I)|]. cbn [forallb].
  intros [Hx _]%andb_true_iff.
  destruct (component_head _ Hx) as (a & r & -> & Ha).
  destruct l; cbn; exact Ha.
Qed.

(** Parsing the string of a well-formed path gives the path back. *)
Lemma Path_str p : wf_path p = true -> PurePath.Path (PurePath.str p) = p.
Proof.
  destruct p as [|r rest]; [reflexivity|]. cbn [wf_path PurePath.str].
  intros [Hr Hrest]%andb_true_iff.
  destruct (PurePath.is_root r) eqn:Eroot.
  - pose proof (join_head _ Hrest) as Hhead.
    unfold PurePath.is_root in Eroot. apply orb_true_iff in Eroot.
    unfold PurePath.Path.
    assert (PurePath.splitroot (r +:+ Str.join "/" rest) = (r, Str.join "/" rest)) as ->.
    { generalize dependent (Str.join "/" rest). intros j Hhead.
      destruct Eroot as [->%String.eqb_eq | ->%String.eqb_eq].
      - change ("/" +:+ j) with (String "/" j). unfold PurePath.splitroot.
        cbn [Ascii.eqb Bool.eqb Str.lstrip]. rewrite (lstrip_id _ _ Hhead).
        replace (_ - _) with 1 by (cbn; lia). reflexivity.
      - change ("//" +:+ j) with (String "/" (String "/" j)). unfold PurePath.splitroot.
        cbn [Ascii.eqb Bool.eqb Str.lstrip]. rewrite (lstrip_id _ _ Hhead).
        replace (_ - _) with 2 by (cbn; lia). reflexivity. }
    replace (Str.truthy r) with true
      by (destruct Eroot as [->%String.eqb_eq | ->%String.eqb_eq]; reflexivity).
    cbn [app]. f_equal. now apply parse_components.
  - cbn in Hr.
    assert (List.forallb component (r :: rest) = true) as Hall by (cbn; now rewrite Hr, Hrest).
    pose proof (join_head _ Hall) as Hhead.
    unfold PurePath.Path.
    assert (PurePath.splitroot (Str.join "/" (r :: rest)) = ("", Str.join "/" (r :: rest))) as ->.
    { unfold PurePath.splitroot. destruct (Str.join "/" (r :: rest)); [reflexivity|].
      now rewrite Hhead. }
    cbn [Str.truthy app]. now apply parse_components.
Qed.

End PathFacts.

Module PathFacts2.

Import StrFacts PathFacts.

(** A well-formed path with a name is its parent followed by that name. *)
Lemma name_decompose p :
  wf_path p = true -> Str.truthy (PurePath.name p) = true ->
  exists d, p = d ++ [PurePath.name p] /\ wf_path d = true /\ component (PurePath.name p) = true.
Proof.
  intros Hwf Hnm. unfold PurePath.name in *.
  destruct (Nat.eqb _ _) eqn:E; [discriminate|].
  destruct p as [|r rest]; [discriminate|].
  assert (r :: rest <> []) as Hne by discriminate.
  pose proof (app_removelast_last "" Hne) as Hsplit.
  exists (removelast (r :: rest)). split; [exact Hsplit|].
  cbn [wf_path] in Hwf. apply andb_true_iff in Hwf as [Hr Hrest].
  destruct rest as [|y rest].
  - cbn in *. split; [reflexivity|]. destruct (PurePath.is_root r); [discriminate|exact Hr].
  - assert (y :: rest <> []) as Hne' by discriminate.
    rewrite (app_removelast_last "" Hne'), forallb_app in Hrest.
    apply andb_true_iff in Hrest as [Hfront Hlast].
    cbn [forallb] in Hlast. apply andb_true_iff in Hlast as [Hlast _].
    split.
    + change (removelast (r :: y :: rest)) with (r :: removelast (y :: rest)).
      cbn [wf_path]. now rewrite Hr, Hfront.
    + exact Hlast.
Qed.

Lemma with_suffix_txt d stem :
  Str.truthy stem = true -> component (stem +:+ ".txt") = true ->
  PurePath.with_suffix (d ++ [stem +:+ ".txt"]) ".inkml" = Some (d ++ [stem +:+ ".inkml"]).
Proof.
  intros Hstem Hc. unfold PurePath.with_suffix, PurePath.suffix.
  rewrite (name_snoc _ _ Hc).
  change (stem +:+ ".txt") with (stem +:+ String "." "txt") at 2.
  rewrite rpartition_last by reflexivity. rewrite Hstem.
  cbn -[substring String.length PurePath.name removelast].
  rewrite (truthy_app_r stem ".txt" eq_refl).
  cbn -[substring String.length removelast].
  change ("." +:+ "txt") with ".txt". cbn [Str.truthy negb].
  rewrite removelast_last, length_app.
  replace (String.length stem + String.length ".txt" - String.length ".txt")
    with (String.length stem) by lia.
  now rewrite substring_prefix.
Qed.

Lemma inkml_path_of_ext stem ext :
  Str.contains "." ext = false -> inkml_path_of (stem +:+ "." +:+ ext) = stem +:+ ".inkml".
Proof.
  intros He. unfold inkml_path_of, Str.rsplit1.
  change (stem +:+ "." +:+ ext) with (stem +:+ String "." ext).
  now rewrite rpartition_last.
Qed.

(** On a path that ends in the component [stem.txt], the path returned by
    single-file conversion parses to the path with the name [stem.inkml]. *)
Lemma Path_inkml_path_of d stem :
  wf_path d = true -> Str.contains "/" stem = false ->
  PurePath.Path (inkml_path_of (PurePath.str (d ++ [stem +:+ ".txt"]))) = d ++ [stem +:+ ".inkml"].
Proof.
  intros Hd Hs.
  assert (component (stem +:+ ".txt") = true) as Htxt
    by (apply component_ext; [assumption | reflexivity | cbn; lia]).
  assert (component (stem +:+ ".inkml") = true) as Hink
    by (apply component_ext; [assumption | reflexivity | cbn; lia]).
  destruct (str_snoc d) as [pre Hpre].
  rewrite (Hpre _ Htxt), <- app_assoc.
  assert (inkml_path_of ((pre +:+ stem) +:+ ".txt") = (pre +:+ stem) +:+ ".inkml") as ->
    by (now apply (inkml_path_of_ext (pre +:+ stem) "txt")).
  rewrite app_assoc, <- (Hpre _ Hink).
  apply Path_str. now apply wf_snoc.
Qed.

End PathFacts2.

(** ** The claims about path derivation *)

Section PathClaims.

Import StrFacts PathFacts PathFacts2.

Context {env : Environment}.

(** What [subprocess_run] gives for each outcome of the process. *)
Lemma convert_txt_to_inkml_unfold (self : InkMLConverter) (p : string) (w : World) :
  convert_txt_to_inkml self p w =
  match run_process ["npx"; "tsx"; converter_script self; p] (files w) with
  | (Exited rc out err, fs') =>
      if Z.eqb rc 0 then (Ok (inkml_path_of p), mkWorld fs' (stdout w))
      else (Err (Exception ("Conversion failed: " +:+ err)), mkWorld fs' (stdout w))
  | (NotStarted reason, fs') => (Err (OSError reason), mkWorld fs' (stdout w))
  end.
Proof.
  unfold convert_txt_to_inkml, try_except, bind, subprocess_run, ret, raise.
  destruct (run_process _ _) as [[rc out err|reason] fs'].
  - destruct (Z.eqb rc 0); reflexivity.
  - reflexivity.
Qed.

Lemma convert_txt_to_inkml_returns (self : InkMLConverter) (p : string) (w w' : World) (r : string) :
  convert_txt_to_inkml self p w = (Ok r, w') -> r = inkml_path_of p.
Proof.
  rewrite convert_txt_to_inkml_unfold.
  destruct (run_process _ _) as [[rc out err|reason] fs'].
  - destruct (Z.eqb rc 0); now intros [= <- <-].
  - discriminate.
Qed.

(** C1. For an input path that ends in an extension segment, that is
    [stem ++ "." ++ ext] with [ext] non-empty and free of ["."] and ["/"], the
    output path that single-file conversion derives, and returns whenever it
    returns, is [stem ++ ".inkml"]: the input path with its final extension
    segment replaced by [".inkml"]. *)
Theorem derived_output_path_replaces_extension
    (self : InkMLConverter) (stem ext : string) :
  Str.truthy ext = true ->
  Str.contains "." ext = false ->
  Str.contains "/" ext = false ->
  inkml_path_of (stem +:+ "." +:+ ext) = stem +:+ ".inkml" /\
  forall w r w',
    convert_txt_to_inkml self (stem +:+ "." +:+ ext) w = (Ok r, w') ->
    r = stem +:+ ".inkml".
Proof.
  intros _ Hdot _. split.
  - now apply inkml_path_of_ext.
  - intros w r w' H. apply convert_txt_to_inkml_returns in H as ->.
    now apply inkml_path_of_ext.
Qed.

(** C10, as amended. For a well-formed path whose name is [stem ++ ".txt"]
    with a non-empty [stem], replacing the suffix with [".inkml"] gives
    exactly the path that the string returned by single-file conversion
    parses to, so the two output names agree and both are
    [stem ++ ".inkml"]. *)
Theorem output_names_agree_on_txt_files (p : PurePath.t) (stem : string) :
  wf_path p = true ->
  PurePath.name p = stem +:+ ".txt" ->
  Str.truthy stem = true ->
  PurePath.with_suffix p ".inkml"
    = Some (PurePath.Path (inkml_path_of (PurePath.str p))) /\
  PurePath.name (PurePath.Path (inkml_path_of (PurePath.str p))) = stem +:+ ".inkml" /\
  names_agree p.
Proof.
  intros Hwf Hname Hstem.
  destruct (name_decompose p Hwf) as (d & Hp & Hd & Hc).
  { rewrite Hname. now apply truthy_app_r. }
  rewrite Hname in Hp, Hc.
  assert (Str.contains "/" stem = false) as Hs.
  { apply component_inv in Hc as (_ & _ & Hc). rewrite contains_app in Hc.
    now apply orb_false_iff in Hc as [? _]. }
  assert (component (stem +:+ ".inkml") = true) as Hink
    by (apply component_ext; [assumption | reflexivity | cbn; lia]).
  assert (PurePath.Path (inkml_path_of (PurePath.str p)) = d ++ [stem +:+ ".inkml"]) as HP
    by (rewrite Hp; now apply Path_inkml_path_of).
  assert (PurePath.with_suffix p ".inkml" = Some (d ++ [stem +:+ ".inkml"])) as HW
    by (rewrite Hp; now apply with_suffix_txt).
  unfold names_agree. rewrite HP, HW. cbn [option_map].
  rewrite (name_snoc _ _ Hink). auto.
Qed.

End PathClaims.

(** C10, as stated, fails on the hidden file [data/.txt], which the glob
    [*.txt] matches: pathlib sees no suffix in the name [.txt] and appends,
    giving [.txt.inkml], while the split at the last dot gives [.inkml]. *)
Lemma names_disagree_on_dot_txt :
  ~ (forall p : PurePath.t,
       wf_path p = true -> Str.endswith (PurePath.name p) ".txt" = true -> names_agree p).
Proof.
  intros H. specialize (H ["data"; ".txt"] eq_refl eq_refl).
  unfold names_agree in H. vm_compute in H. discriminate H.
Qed.

(** ** The file tree *)

Module FSFacts.

Lemma lookup_put_same p v n n' :
  FS.put p v n = Some n' -> FS.lookup_path p n' = Some v.
Proof.
  revert n n'. induction p as [|x p IH]; intros n n'; cbn.
  - now intros [= <-].
  - destruct n as [|ch]; [discriminate|]. destruct p as [|y q].
    + intros [= <-]. cbn. now rewrite lookup_insert_eq.
    + destruct (ch !! x) as [c|]; [|discriminate].
      destruct (FS.put (y :: q) v c) as [c'|] eqn:E; [|discriminate].
      intros [= <-]. cbn [FS.lookup_path]. rewrite lookup_insert_eq. now apply (IH c).
Qed.

Lemma lookup_unlink_same p n n' :
  FS.unlink p n = Some n' -> FS.lookup_path p n' = None.
Proof.
  revert n n'. induction p as [|x p IH]; intros n n'; cbn; [discriminate|].
  destruct n as [|ch]; [discriminate|]. destruct p as [|y q].
  - intros [= <-]. cbn. now rewrite lookup_delete_eq.
  - destruct (ch !! x) as [c|]; [|discriminate].
    destruct (FS.unlink (y :: q) c) as [c'|] eqn:E; [|discriminate].
    intros [= <-]. cbn [FS.lookup_path]. rewrite lookup_insert_eq. now apply (IH c).
Qed.

Lemma unlink_is_Some p n :
  p <> [] -> is_Some (FS.lookup_path p n) -> is_Some (FS.unlink p n).
Proof.
  revert n. induction p as [|x p IH]; intros n Hne; [congruence|]. cbn.
  destruct n as [|ch]; [now intros [? ?]|]. destruct p as [|y q]; [eauto|].
  destruct (ch !! x) as [c|]; [|now intros [? ?]].
  intros H. destruct (IH c) as [c' ->]; [discriminate | exact H | eauto].
Qed.

Lemma put_dir p v ch n' :
  p <> [] -> FS.put p v (Dir ch) = Some n' -> exists ch', n' = Dir ch'.
Proof.
  destruct p as [|x p]; [congruence|]. intros _. cbn. destruct p.
  - intros [= <-]. eauto.
  - destruct (ch !! x); [|discriminate]. destruct (FS.put _ _ _); [|discriminate].
    intros [= <-]. eauto.
Qed.

Lemma unlink_dir p ch n' :
  FS.unlink p (Dir ch) = Some n' -> exists ch', n' = Dir ch'.
Proof.
  destruct p as [|x p]; [discriminate|]. cbn. destruct p.
  - intros [= <-]. eauto.
  - destruct (ch !! x); [|discriminate]. destruct (FS.unlink _ _); [|discriminate].
    intros [= <-]. eauto.
Qed.

Lemma mkdirs_dir whole p n n' :
  FS.mkdirs whole p n = Ok n' -> exists ch', n' = Dir ch'.
Proof.
  destruct p as [|x p]; destruct n as [c|ch]; cbn; try discriminate.
  - intros [= <-]. eauto.
  - destruct (FS.mkdirs whole p _); [|discriminate]. intros [= <-]. eauto.
Qed.

(** After [mkdirs], the path and each of its ancestors is a directory. *)
Lemma mkdirs_prefixes whole p n n' :
  FS.mkdirs whole p n = Ok n' ->
  forall k, FS.is_dir (FS.lookup_path (List.firstn k p) n') = true.
Proof.
  revert n n'. induction p as [|x p IH]; intros n n' H k.
  - rewrite firstn_nil. cbn. destruct (mkdirs_dir _ _ _ _ H) as [ch' ->]. reflexivity.
  - destruct (mkdirs_dir _ _ _ _ H) as [ch' ->].
    destruct k as [|k]; [reflexivity|].
    cbn in H. destruct n as [c|ch]; [discriminate|].
    destruct (FS.mkdirs whole p _) as [c'|] eqn:E; [|discriminate].
    injection H as <-. cbn [firstn FS.lookup_path]. rewrite lookup_insert_eq.
    now apply (IH _ _ E).
Qed.

(** [mkdirs] goes through exactly when no regular file sits on the path. *)
Lemma mkdirs_succeeds whole p n :
  (forall k, FS.is_file (FS.lookup_path (List.firstn k p) n) = false) ->
  exists n', FS.mkdirs whole p n = Ok n'.
Proof.
  revert n. induction p as [|x p IH]; intros n H.
  - specialize (H 0). cbn in H. destruct n; [discriminate|]. cbn. eauto.
  - pose proof (H 0) as H0. cbn in H0. destruct n as [c|ch]; [discriminate|]. cbn.
    destruct (IH (default (Dir ∅) (ch !! x))) as [c' ->]; [|eauto].
    intros k. specialize (H (S k)). cbn [firstn FS.lookup_path] in H.
    destruct (ch !! x) as [c|]; [exact H|]. cbn.
    destruct k; [reflexivity|]. destruct p; cbn; [reflexivity|].
    now rewrite lookup_empty.
Qed.

End FSFacts.

(** ** The monad and the operating-system calls *)

Module OSFacts.

Import FSFacts.

Lemma bind_ok_inv {A B} (m : M A) (k : A -> M B) w b w' :
  bind m k w = (Ok b, w') -> exists a w1, m w = (Ok a, w1) /\ k a w1 = (Ok b, w').
Proof.
  unfold bind. destruct (m w) as [[a|e] w1]; [eauto | discriminate].
Qed.

Lemma try_finally_ok_inv {A} (body : M A) (cleanup : M unit) w a w' :
  try_finally body cleanup w = (Ok a, w') ->
  exists w1, body w = (Ok a, w1) /\ cleanup w1 = (Ok tt, w').
Proof.
  unfold try_finally. destruct (body w) as [r w1] eqn:Hb.
  destruct (cleanup w1) as [[[]|e] w2] eqn:Hc; [|discriminate].
  intros [= -> <-]. eauto.
Qed.

Lemma root_node_with_root w ch : root_node (with_root w (Dir ch)) = Dir ch.
Proof. reflexivity. Qed.

Lemma stdout_with_root w n : stdout (with_root w n) = stdout w.
Proof. reflexivity. Qed.

Lemma lookup_path_app p r n :
  FS.lookup_path (p ++ r) n =
  match FS.lookup_path p n with
  | Some m => FS.lookup_path r m
  | None => None
  end.
Proof.
  revert n. induction p as [|x p IH]; intros n; [reflexivity|]. cbn.
  destruct n as [c|ch]; [reflexivity|]. destruct (ch !! x); [apply IH|reflexivity].
Qed.

Lemma diverge_intro (p q : list string) :
  (forall r, q <> p ++ r) -> (forall r, p <> q ++ r) -> diverge p q.
Proof.
  revert q. induction p as [|x p IH]; intros q Hpq Hqp.
  - exfalso. now apply (Hpq q).
  - destruct q as [|y q]; [exfalso; now apply (Hqp (x :: p))|].
    destruct (decide (x = y)) as [<-|Hne]; [|now constructor].
    apply diverge_later, IH.
    + intros r ->. now apply (Hpq r).
    + intros r ->. now apply (Hqp r).
Qed.

(** Binding one path leaves what is found at a path that diverges from
    it. *)
Lemma lookup_put_diverge p q v n n' :
  diverge p q -> FS.put q v n = Some n' -> FS.lookup_path p n' = FS.lookup_path p n.
Proof.
  intros Hd. revert n n'. induction Hd as [x y p q Hne | x p q Hd IH]; intros n n'; cbn.
  - destruct n as [c|ch]; [discriminate|]. destruct q as [|z q].
    + intros [= <-]. now rewrite lookup_insert_ne.
    + destruct (ch !! y); [|discriminate]. destruct (FS.put _ _ _); [|discriminate].
      intros [= <-]. now rewrite lookup_insert_ne.
  - destruct n as [c|ch]; [discriminate|]. destruct q as [|z q]; [inversion Hd|].
    destruct (ch !! x) as [c|] eqn:E; [|discriminate].
    destruct (FS.put (z :: q) v c) as [c'|] eqn:Hput; [|discriminate].
    intros [= <-]. rewrite lookup_insert_eq. now apply IH.
Qed.

(** What a rename that goes through has checked and done. *)
Lemma rename_inv src dst w w' :
  OS.rename src dst w = (Ok tt, w') ->
  exists ps pd v,
    OS.resolve src = Some ps /\ OS.resolve dst = Some pd /\
    FS.lookup_path ps (root_node w) = Some v /\
    ((ps = pd /\ w' = w) \/
     (ps <> pd /\ ps <> [] /\ pd <> [] /\
      FS.is_dir (FS.lookup_path (List.removelast pd) (root_node w)) = true /\
      match v with
      | File _ => FS.is_dir (FS.lookup_path pd (root_node w)) = false
      | Dir _ =>
          OS.is_prefix_of ps pd = false /\
          (FS.is_dir (FS.lookup_path pd (root_node w))
             && negb (FS.is_empty_dir (FS.lookup_path pd (root_node w)))) = false
      end /\
      exists ch1 ch2,
        FS.unlink ps (root_node w) = Some (Dir ch1) /\
        FS.put pd v (Dir ch1) = Some (Dir ch2) /\
        w' = with_root w (Dir ch2))).
Proof.
  unfold OS.rename.
  destruct (OS.resolve src) as [ps|]; [|discriminate].
  destruct (OS.resolve dst) as [pd|]; [|discriminate].
  destruct (FS.lookup_path ps (root_node w)) as [v|] eqn:Hv; [|discriminate].
  intros H. exists ps, pd, v.
  split; [reflexivity|]. split; [reflexivity|]. split; [exact Hv|].
  case_bool_decide as Heq; [left; now injection H as <-|right].
  destruct (bool_decide (ps = []) || bool_decide (pd = [])) eqn:Hnil; [discriminate|].
  apply orb_false_iff in Hnil as [Hps%bool_decide_eq_false Hpd%bool_decide_eq_false].
  destruct (FS.lookup_path (removelast pd) (root_node w)) as [[c|ch]|] eqn:Hparent;
    try discriminate.
  repeat split; try assumption.
  - destruct v as [c|chv].
    + destruct (FS.is_dir (FS.lookup_path pd (root_node w))); [discriminate|reflexivity].
    + destruct (OS.is_prefix_of ps pd); [discriminate|].
      destruct (FS.is_file _); [discriminate|].
      destruct (FS.is_dir _ && negb _); [discriminate|]. now split.
  - assert (exists n1 n2, FS.unlink ps (root_node w) = Some n1 /\
                          FS.put pd v n1 = Some n2 /\ w' = with_root w n2)
      as (n1 & n2 & Hu & Hp & ->).
    { destruct v as [c|chv].
      - destruct (FS.is_dir _); [discriminate|].
        destruct (FS.unlink ps (root_node w)) as [n1|]; [|discriminate].
        destruct (FS.put pd _ n1) as [n2|] eqn:Hp; [|discriminate].
        injection H as <-. eauto.
      - destruct (OS.is_prefix_of ps pd); [discriminate|].
        destruct (FS.is_file _); [discriminate|].
        destruct (FS.is_dir _ && negb _); [discriminate|].
        destruct (FS.unlink ps (root_node w)) as [n1|]; [|discriminate].
        destruct (FS.put pd _ n1) as [n2|] eqn:Hp; [|discriminate].
        injection H as <-. eauto. }
    destruct (unlink_dir _ _ _ Hu) as [ch1 ->].
    destruct (put_dir _ _ _ _ Hpd Hp) as [ch2 ->]. eauto.
Qed.

(** A rename that goes through leaves at the destination the node that was
    at the source, and prints nothing. *)
Lemma rename_ok src dst w w' :
  OS.rename src dst w = (Ok tt, w') ->
  exists ps pd v,
    OS.resolve src = Some ps /\ OS.resolve dst = Some pd /\
    FS.lookup_path ps (root_node w) = Some v /\
    FS.lookup_path pd (root_node w') = Some v /\
    stdout w' = stdout w.
Proof.
  intros (ps & pd & v & Hps & Hpd & Hv & Hcase)%rename_inv.
  exists ps, pd, v. repeat split; try assumption.
  - destruct Hcase as [[<- ->] | (_ & _ & _ & _ & _ & ch1 & ch2 & _ & Hp & ->)];
      [assumption|].
    rewrite root_node_with_root. exact (lookup_put_same _ _ _ _ Hp).
  - destruct Hcase as [[_ ->] | (_ & _ & _ & _ & _ & ch1 & ch2 & _ & _ & ->)]; reflexivity.
Qed.

(** After a rename between two different paths that went through, nothing
    is left at the source. *)
Lemma rename_source_gone src dst w w' ps pd :
  OS.rename src dst w = (Ok tt, w') ->
  OS.resolve src = Some ps -> OS.resolve dst = Some pd -> ps <> pd ->
  FS.lookup_path ps (root_node w') = None.
Proof.
  intros (ps' & pd' & v & Hps' & Hpd' & Hv & Hcase)%rename_inv Hps Hpd Hne.
  rewrite Hps in Hps'. rewrite Hpd in Hpd'. injection Hps' as <-. injection Hpd' as <-.
  destruct Hcase as [[? _] | (_ & Hsrc & Hdst & Hparent & Hblocked & ch1 & ch2 & Hu & Hp & ->)];
    [contradiction|].
  assert (forall r, pd <> ps ++ r) as Hnot_below.
  { intros r ->. destruct r as [|x r _] using rev_ind.
    - apply Hne. now rewrite List.app_nil_r.
    - rewrite List.app_assoc, removelast_last, lookup_path_app, Hv in Hparent.
      destruct v as [c|ch].
      + destruct r; discriminate Hparent.
      + destruct Hblocked as [Hpre _]. unfold OS.is_prefix_of in Hpre.
        apply bool_decide_eq_false in Hpre. apply Hpre.
        now rewrite firstn_app, firstn_all, Nat.sub_diag, firstn_O, List.app_nil_r. }
  assert (forall r, ps <> pd ++ r) as Hnot_above.
  { intros r ->. destruct r as [|x r]; [apply Hne; now rewrite List.app_nil_r|].
    rewrite lookup_path_app in Hv.
    destruct (FS.lookup_path pd (root_node w)) as [[c|ch]|] eqn:Ht; try discriminate Hv.
    cbn in Hv. destruct (ch !! x) as [cx|] eqn:Hx; [|discriminate Hv].
    assert (FS.is_empty_dir (Some (Dir ch)) = false) as Hempty.
    { cbn. apply bool_decide_eq_false_2. intros ->. now rewrite lookup_empty in Hx. }
    cbn [FS.is_dir] in Hblocked. rewrite Hempty in Hblocked.
    destruct v; [discriminate Hblocked|]. now destruct Hblocked as [_ ?]. }
  rewrite root_node_with_root.
  rewrite (lookup_put_diverge _ _ _ _ _ (diverge_intro ps pd Hnot_below Hnot_above) Hp).
  exact (lookup_unlink_same _ _ _ Hu).
Qed.

Lemma rename_stdout src dst w r w' :
  OS.rename src dst w = (r, w') -> stdout w' = stdout w.
Proof.
  unfold OS.rename. intros H.
  repeat case_match; simplify_eq; reflexivity.
Qed.

(** After the guarded removal of [convert_from_string]'s cleanup, no regular
    file is left at the path; a directory there makes [os.remove] raise. *)
Lemma guarded_remove s w r w' :
  (present <- OS.path_exists s ;; if present then OS.remove s else ret tt) w = (r, w') ->
  (OS.stat s w' = None /\ r = Ok tt) \/
  (exists msg, r = Err (IsADirectoryError msg) /\ FS.is_dir (OS.stat s w') = true).
Proof.
  unfold bind, OS.path_exists, OS.remove, ret.
  case_bool_decide as Hex.
  - destruct Hex as [v Hv]. rewrite Hv.
    unfold OS.stat in *. destruct (OS.resolve s) as [p|]; [|discriminate].
    destruct v as [c|ch].
    + destruct (unlink_is_Some p (root_node w)) as [n Hn].
      * intros ->. discriminate.
      * rewrite Hv. eauto.
      * rewrite Hn. intros [= <- <-]. left.
        destruct (unlink_dir _ _ _ Hn) as [ch' ->]. rewrite root_node_with_root.
        split; [exact (lookup_unlink_same _ _ _ Hn) | reflexivity].
    + intros [= <- <-]. right. eexists. split; [reflexivity|]. now rewrite Hv.
  - intros [= <- <-]. left. split; [|reflexivity].
    destruct (OS.stat s w) eqn:E; [|reflexivity]. exfalso. apply Hex. eauto.
Qed.

End OSFacts.

(** ** The claims about single-file and string-content conversion *)

Section ConversionClaims.

Import StrFacts PathFacts PathFacts2 FSFacts OSFacts.

Context {env : Environment}.


(** [tempfile] hands out a name that was free, and leaves an empty file
    there. *)
Lemma NamedTemporaryFile_ok sfx w tmp wc :
  NamedTemporaryFile sfx w = (Ok tmp, wc) ->
  tmp = mkstemp_name (files w) sfx /\
  OS.stat tmp w = None /\
  OS.stat tmp wc = Some (File "") /\
  stdout wc = stdout w.
Proof.
  unfold NamedTemporaryFile, OS.stat.
  destruct (OS.resolve _) as [p|] eqn:Hp; [|discriminate].
  destruct (FS.lookup_path p (root_node w)) eqn:Hl; [discriminate|].
  destruct (FS.put p _ _) as [n|] eqn:Hput; [|discriminate].
  intros [= <- <-]. split; [reflexivity|]. rewrite Hp. split; [exact Hl|].
  pose proof (lookup_put_same _ _ _ _ Hput) as Hsame.
  destruct p as [|x p]; [discriminate|].
  apply put_dir in Hput as [ch ->]; [|discriminate].
  rewrite root_node_with_root. now split.
Qed.

(** A write that goes through leaves the text in the file. *)
Lemma file_write_ok nm content w w' c0 :
  OS.stat nm w = Some (File c0) ->
  file_write nm content w = (Ok tt, w') ->
  write_error content = None /\ OS.stat nm w' = Some (File content) /\ stdout w' = stdout w.
Proof.
  unfold file_write, OS.stat. intros Hstat.
  destruct (write_error content); [discriminate|].
  destruct (OS.resolve nm) as [p|] eqn:Hp; [|discriminate].
  destruct (FS.put p _ _) as [n|] eqn:Hput; [|discriminate].
  intros [= <-]. split; [reflexivity|].
  pose proof (lookup_put_same _ _ _ _ Hput) as Hsame.
  destruct p as [|x p]; [discriminate|].
  apply put_dir in Hput as [ch ->]; [|discriminate].
  rewrite root_node_with_root. now split.
Qed.

(** The temporary file exists with its content once the [with] block is
    left. *)
Lemma NamedTemporaryFile_write_ok sfx content w tmp w0 :
  NamedTemporaryFile_write sfx content w = (Ok tmp, w0) ->
  tmp = mkstemp_name (files w) sfx /\ OS.stat tmp w0 = Some (File content).
Proof.
  unfold NamedTemporaryFile_write.
  intros (t & wc & Hcreate & Hrest)%bind_ok_inv.
  apply bind_ok_inv in Hrest as ([] & w1 & Hwrite & Hret).
  injection Hret as <- <-.
  apply NamedTemporaryFile_ok in Hcreate as (Hname & _ & Hempty & _).
  split; [exact Hname|].
  exact (proj1 (proj2 (file_write_ok _ _ _ _ _ Hempty Hwrite))).
Qed.

(** C3. The temporary input file is not removed on every call: the file is
    created and written before the [try] statement, so when the write
    raises (text that the encoding cannot represent), the call raises that
    exception without reaching the [finally] clause, and the file that
    [tempfile] has just created at a path that was free is left behind. *)
Theorem temporary_file_left_when_write_fails
    (self : InkMLConverter) (txt_content : string) (output_filename : option string)
    (w wc : World) (tmp : string) (e : exn) :
  NamedTemporaryFile ".txt" w = (Ok tmp, wc) ->
  write_error txt_content = Some e ->
  OS.stat tmp w = None /\
  convert_from_string self txt_content output_filename w = (Err e, wc) /\
  OS.stat tmp wc = Some (File "").
Proof.
  intros Hcreate Hwrite.
  destruct (NamedTemporaryFile_ok _ _ _ _ Hcreate) as (_ & Hfree & Hempty & _).
  split; [exact Hfree|]. split; [|exact Hempty].
  unfold convert_from_string, NamedTemporaryFile_write, bind, file_write.
  now rewrite Hcreate, Hwrite.
Qed.

(** C9. With a non-empty label free of ["/"], and the temporary file named
    [base.txt] in the directory [d], string-content conversion returns,
    whenever it returns, the path [base_label.inkml] in that same directory:
    the parent of the returned path is the parent of the temporary file and
    its name is the base name, an underscore, the label and [".inkml"],
    never [label.inkml] alone. *)
Theorem labelled_output_path
    (self : InkMLConverter) (txt_content label : string)
    (d : PurePath.t) (base : string) (w w' : World) (r : string) :
  mkstemp_name (files w) ".txt" = PurePath.str (d ++ [base +:+ ".txt"]) ->
  wf_path d = true ->
  Str.contains "/" base = false ->
  Str.truthy label = true ->
  Str.contains "/" label = false ->
  convert_from_string self txt_content (Some label) w = (Ok r, w') ->
  r = PurePath.str (d ++ [base +:+ "_" +:+ label +:+ ".inkml"]) /\
  PurePath.parent (PurePath.Path r)
    = PurePath.parent (PurePath.Path (mkstemp_name (files w) ".txt")) /\
  PurePath.parent (PurePath.Path r) = d /\
  PurePath.name (PurePath.Path r) = base +:+ "_" +:+ label +:+ ".inkml" /\
  PurePath.name (PurePath.Path r) <> label +:+ ".inkml".
Proof.
  intros Htmp Hd Hbase Hlabel Hslash Hcall.
  assert (component (base +:+ ".txt") = true) as Htxt
    by (apply component_ext; [assumption | reflexivity | cbn; lia]).
  assert (component (base +:+ "_" +:+ label +:+ ".inkml") = true) as Hout.
  { apply component_ext; [assumption | | ].
    - now rewrite !contains_app, Hslash.
    - rewrite !length_app. cbn. lia. }
  (* the returned string *)
  assert (r = List.nth 0 (Str.rsplit1 "." (mkstemp_name (files w) ".txt")) ""
                +:+ "_" +:+ label +:+ ".inkml") as Hr.
  { unfold convert_from_string in Hcall.
    apply bind_ok_inv in Hcall as (tmp & w0 & Hcreate & Hcall).
    apply NamedTemporaryFile_write_ok in Hcreate as [-> _].
    apply try_finally_ok_inv in Hcall as (w1 & Hbody & _).
    apply bind_ok_inv in Hbody as (ink & w2 & _ & Hbody).
    rewrite Hlabel in Hbody.
    apply bind_ok_inv in Hbody as ([] & w3 & _ & Hret).
    now injection Hret as <- _. }
  destruct (str_snoc d) as [pre Hpre].
  assert (r = PurePath.str (d ++ [base +:+ "_" +:+ label +:+ ".inkml"])) as Hstr.
  { rewrite Hr, Htmp, (Hpre _ Htxt), (Hpre _ Hout).
    unfold Str.rsplit1.
    replace (pre +:+ base +:+ ".txt") with ((pre +:+ base) +:+ String "." "txt")
      by (now rewrite app_assoc).
    rewrite rpartition_last by reflexivity. cbn [nth]. now rewrite app_assoc. }
  assert (PurePath.Path r = d ++ [base +:+ "_" +:+ label +:+ ".inkml"]) as HP
    by (rewrite Hstr; apply Path_str; now apply wf_snoc).
  assert (PurePath.Path (mkstemp_name (files w) ".txt") = d ++ [base +:+ ".txt"]) as HT
    by (rewrite Htmp; apply Path_str; now apply wf_snoc).
  rewrite HP, HT, !parent_snoc, name_snoc by assumption.
  repeat split; try assumption; try reflexivity.
  intros E. apply (f_equal String.length) in E. rewrite !length_app in E. cbn in E. lia.
Qed.

End ConversionClaims.

(** C7. Whenever the process exits with status zero, single-file conversion
    returns [inkml_path_of p], computed from the input path string alone, and
    hands on the file system exactly as the process left it.  Two runs, in
    any two environments and worlds, therefore return the same path,
    whether or not either of them left a file there. *)
Theorem returned_path_is_not_checked
    (env1 env2 : Environment) (self : InkMLConverter) (p : string) (w1 w2 : World)
    (out1 err1 out2 err2 : string) (fs1 fs2 : gmap string node) :
  @run_process env1 ["npx"; "tsx"; converter_script self; p] (files w1)
    = (Exited 0 out1 err1, fs1) ->
  @run_process env2 ["npx"; "tsx"; converter_script self; p] (files w2)
    = (Exited 0 out2 err2, fs2) ->
  @convert_txt_to_inkml env1 self p w1 = (Ok (inkml_path_of p), mkWorld fs1 (stdout w1)) /\
  @convert_txt_to_inkml env2 self p w2 = (Ok (inkml_path_of p), mkWorld fs2 (stdout w2)).
Proof.
  intros H1 H2. rewrite !convert_txt_to_inkml_unfold, H1, H2. now split.
Qed.

(** C5. Constructing the converter with a path at which nothing exists
    raises [FileNotFoundError] and leaves the world untouched; without a
    path, the script is looked for next to the module file and the same
    existence check decides; and the constructor consults neither the
    converter process nor the scan nor [tempfile], only [__file__]. *)
Theorem init_requires_existing_script
    (env : Environment) (w : World) (p : string) :
  FS.lookup_path (PurePath.Path p) (root_node w) = None ->
  @__init__ env (Some p) w
    = (Err (FileNotFoundError ("Converter script not found: " +:+ p)), w) /\
  (let dflt :=
     PurePath.str (PurePath.truediv (PurePath.parent (PurePath.Path (@module_file env)))
                                    "convert_txt_to_inkml.ts") in
   @__init__ env None w
     = if bool_decide (is_Some (FS.lookup_path (PurePath.Path dflt) (root_node w)))
       then (Ok (mkConverter dflt), w)
       else (Err (FileNotFoundError ("Converter script not found: " +:+ dflt)), w)) /\
  (forall (env' : Environment) (arg : option string),
     @module_file env' = @module_file env -> @__init__ env' arg w = @__init__ env arg w).
Proof.
  intros Hmissing. repeat split.
  - unfold __init__, bind, OS.Path_exists, py_or.
    destruct p as [|a p]; [discriminate Hmissing|]. cbn [Str.truthy].
    rewrite Hmissing. rewrite bool_decide_eq_false_2 by (intros [? ?]; discriminate).
    reflexivity.
  - unfold __init__, bind, OS.Path_exists, py_or. cbn zeta.
    case_bool_decide; reflexivity.
  - intros env' arg Hfile. unfold __init__. now rewrite Hfile.
Qed.

(** ** Batch conversion *)

Module PathFacts3.

Import StrFacts PathFacts PathFacts2.





Lemma Path_component nm : component nm = true -> PurePath.Path nm = [nm].
Proof.
  intros Hc.
  assert (PurePath.str [nm] = nm) as Hs by (cbn; now rewrite (component_not_root _ Hc)).
  rewrite <- Hs at 1. apply Path_str. cbn. now rewrite Hc, orb_true_r.
Qed.

Lemma truediv_component d nm :
  component nm = true -> PurePath.truediv d nm = d ++ [nm].
Proof.
  intros Hc. unfold PurePath.truediv. rewrite (Path_component _ Hc).
  cbn. now rewrite (component_not_root _ Hc).
Qed.

(** Replacing the suffix of a well-formed path changes its name only, and
    the new name is again a component. *)
Lemma with_suffix_inkml f q :
  wf_path f = true -> PurePath.with_suffix f ".inkml" = Some q ->
  component (PurePath.name q) = true /\ q = List.removelast f ++ [PurePath.name q].
Proof.
  intros Hwf. unfold PurePath.with_suffix.
  cbn [Str.contains Ascii.eqb Bool.eqb orb Str.truthy andb String.prefix negb String.eqb].
  change (if (if Ascii.ascii_dec "." "." then true else false) then false else true)
    with false; cbn [orb].
  destruct (Str.truthy (PurePath.name f)) eqn:Hnm; [|discriminate]. cbn [negb].
  destruct (name_decompose f Hwf Hnm) as (d & Hf & Hd & Hc).
  apply component_inv in Hc as Hparts. destruct Hparts as (_ & _ & Hslash).
  set (nm' := if negb (Str.truthy (PurePath.suffix f)) then _ else _).
  intros [= <-].
  assert (component nm' = true) as Hc'.
  { subst nm'. unfold PurePath.suffix.
    destruct (Str.rpartition "." (PurePath.name f)) as [[h e]|] eqn:Hrp.
    - destruct (Str.truthy h && Str.truthy e) eqn:Hhe.
      + apply rpartition_inv in Hrp as [Hname _].
        change (Str.truthy ("." +:+ e)) with true. cbn [negb].
        rewrite Hname at 1 2. rewrite length_app.
        change (String.length (String "." e)) with (String.length ("." +:+ e)).
        replace (String.length h + String.length ("." +:+ e) - String.length ("." +:+ e))
          with (String.length h) by lia.
        rewrite substring_prefix.
        apply component_ext; [|reflexivity|cbn; lia].
        rewrite Hname, contains_app in Hslash. now apply orb_false_iff in Hslash as [? _].
      + cbn. apply component_ext; [assumption|reflexivity|cbn; lia].
    - cbn. apply component_ext; [assumption|reflexivity|cbn; lia]. }
  now rewrite (name_snoc _ _ Hc').
Qed.

End PathFacts3.

Section BatchFacts.

Import StrFacts PathFacts PathFacts2 PathFacts3 FSFacts OSFacts.

Context {env : Environment}.

Lemma convert_txt_to_inkml_stdout self p w r w' :
  convert_txt_to_inkml self p w = (r, w') -> stdout w' = stdout w.
Proof.
  rewrite convert_txt_to_inkml_unfold.
  destruct (run_process _ _) as [[rc out err|reason] fs'].
  - destruct (Z.eqb rc 0); now intros [= <- <-].
  - now intros [= <- <-].
Qed.

(** Without relocation, an attempt is single-file conversion and nothing
    else. *)
Lemma attempt_in_place self dir f w :
  attempt self dir dir f w = convert_txt_to_inkml self (PurePath.str f) w.
Proof.
  unfold attempt, bind. rewrite bool_decide_eq_true_2 by reflexivity. cbn [negb].
  destruct (convert_txt_to_inkml _ _ _) as [[a|e] w1]; reflexivity.
Qed.



(** One turn of the loop: the list grows by the path of an attempt that
    went through; a failed attempt prints one line and leaves the list. *)
Lemma batch_body_attempt self inp outp acc f w :
  batch_body self inp outp acc f w =
  match attempt self inp outp f w with
  | (Ok p, w1) => (Ok (acc ++ [p]), w1)
  | (Err e, w1) =>
      (Ok acc,
       mkWorld (files w1)
         (stdout w1 ++ ["Failed to convert " +:+ PurePath.str f +:+ ": " +:+ exn_str e]))
  end.
Proof.
  unfold batch_body, attempt, try_except, bind, print, ret, raise.
  destruct (convert_txt_to_inkml _ _ _) as [[ink|e] w1]; [|reflexivity].
  destruct (negb _); [|reflexivity].
  destruct (PurePath.with_suffix _ _); [|reflexivity].
  destruct (OS.rename _ _ _) as [[[]|e] w2]; reflexivity.
Qed.

(** The loop computes the trace: it always returns, with the converted
    paths appended in order. *)
Lemma for_each_batch_trace self inp outp txt_files acc w :
  for_each txt_files acc (batch_body self inp outp) w =
  (Ok (acc ++ converted (fst (batch_trace self inp outp txt_files w))),
   snd (batch_trace self inp outp txt_files w)).
Proof.
  revert acc w. induction txt_files as [|f rest IH]; intros acc w.
  - cbn. unfold ret. now rewrite List.app_nil_r.
  - cbn [for_each batch_trace]. unfold bind. rewrite batch_body_attempt.
    destruct (attempt self inp outp f w) as [[p|e] w1].
    + rewrite IH. destruct (batch_trace self inp outp rest w1) as [tr w3].
      cbn. now rewrite <- List.app_assoc.
    + rewrite IH. destruct (batch_trace self inp outp rest _) as [tr w3].
      reflexivity.
Qed.




(** Every path of the trace is the result of an attempt on a discovered
    file. *)
Lemma converted_from_attempt self inp outp txt_files w r :
  In r (converted (fst (batch_trace self inp outp txt_files w))) ->
  exists f wa wb, In f txt_files /\ attempt self inp outp f wa = (Ok r, wb).
Proof.
  revert w. induction txt_files as [|f rest IH]; intros w; [contradiction|].
  cbn [batch_trace]. destruct (attempt _ _ _ _ _) as [res w1] eqn:Hatt.
  match goal with |- context [batch_trace self inp outp rest ?w2] =>
    specialize (IH w2); destruct (batch_trace self inp outp rest w2) as [tr w3] end.
  cbn [fst converted flat_map snd] in *.
  intros [Hin | Hin]%in_app_or.
  - destruct res as [p|e]; [|contradiction]. destruct Hin as [<- | []].
    exists f, w, w1. split; [now left | exact Hatt].
  - destruct (IH Hin) as (f' & wa & wb & Hf & Ha). exists f', wa, wb.
    split; [now right | exact Ha].
Qed.

End BatchFacts.

Section BatchClaims.

Import StrFacts PathFacts PathFacts2 PathFacts3 FSFacts OSFacts.

Context {env : Environment}.

Lemma mkdir_ok p w w1 :
  OS.mkdir_parents_exist_ok p w = (Ok tt, w1) ->
  (forall k, FS.is_dir (FS.lookup_path (List.firstn k p) (root_node w1)) = true) /\
  stdout w1 = stdout w.
Proof.
  unfold OS.mkdir_parents_exist_ok.
  destruct (FS.mkdirs _ _ _) as [n|e] eqn:E; [|discriminate].
  intros [= <-]. destruct (mkdirs_dir _ _ _ _ E) as [ch ->].
  rewrite root_node_with_root. split; [exact (mkdirs_prefixes _ _ _ _ E)|reflexivity].
Qed.

Lemma mkdir_ok_self p w w1 :
  OS.mkdir_parents_exist_ok p w = (Ok tt, w1) ->
  FS.is_dir (FS.lookup_path p (root_node w1)) = true.
Proof.
  intros [H _]%mkdir_ok. specialize (H (List.length p)). now rewrite firstn_all in H.
Qed.

Lemma mkdir_succeeds p w :
  (forall k, FS.is_file (FS.lookup_path (List.firstn k p) (root_node w)) = false) ->
  exists w1, OS.mkdir_parents_exist_ok p w = (Ok tt, w1).
Proof.
  intros H. unfold OS.mkdir_parents_exist_ok.
  destruct (mkdirs_succeeds (PurePath.str p) p (root_node w) H) as [n ->]. eauto.
Qed.

(** A directory that is already there is left as it is. *)
Lemma mkdirs_existing whole p n :
  FS.is_dir (FS.lookup_path p n) = true -> FS.mkdirs whole p n = Ok n.
Proof.
  revert n. induction p as [|x p IH]; intros n; cbn.
  - destruct n; [discriminate|reflexivity].
  - destruct n as [c|ch]; [discriminate|].
    destruct (ch !! x) as [c|] eqn:E; [|discriminate].
    intros H. cbn. rewrite (IH c H). now rewrite insert_id.
Qed.

Lemma mkdir_existing p w :
  FS.is_dir (FS.lookup_path p (root_node w)) = true ->
  OS.mkdir_parents_exist_ok p w = (Ok tt, w).
Proof.
  intros H. unfold OS.mkdir_parents_exist_ok. rewrite (mkdirs_existing _ _ _ H).
  destruct w; reflexivity.
Qed.

(** What the batch does once the output directory is there. *)
Lemma batch_after_mkdir self input_dir output_dir w w1 :
  let input_path := PurePath.Path input_dir in
  let output_path :=
    match output_dir with
    | Some o => if Str.truthy o then PurePath.Path o else input_path
    | None => input_path
    end in
  OS.mkdir_parents_exist_ok output_path w = (Ok tt, w1) ->
  batch_convert_directory self input_dir output_dir w =
  for_each (scan (files w1) input_path "*.txt") [] (batch_body self input_path output_path) w1.
Proof.
  intros input_path output_path Hmk.
  unfold batch_convert_directory, bind at 1. fold input_path. fold output_path.
  rewrite Hmk. reflexivity.
Qed.

(** A relocating attempt that goes through: the file is converted, and the
    node the converter left at the derived path is found in the output
    directory, under the name with the suffix replaced. *)
Lemma attempt_relocates self inp outp f wa r wb :
  outp <> inp -> wf_path outp = true -> wf_path f = true ->
  attempt self inp outp f wa = (Ok r, wb) ->
  exists nm wc v,
    option_map PurePath.name (PurePath.with_suffix f ".inkml") = Some nm /\
    component nm = true /\
    r = PurePath.str (outp ++ [nm]) /\
    convert_txt_to_inkml self (PurePath.str f) wa
      = (Ok (inkml_path_of (PurePath.str f)), wc) /\
    OS.stat (inkml_path_of (PurePath.str f)) wc = Some v /\
    OS.stat r wb = Some v /\
    (PurePath.Path (inkml_path_of (PurePath.str f)) <> outp ++ [nm] ->
     OS.stat (inkml_path_of (PurePath.str f)) wb = None).
Proof.
  intros Hne Hout Hf. unfold attempt.
  intros (ink & wc & Hconv & Hrest)%bind_ok_inv.
  pose proof (convert_txt_to_inkml_returns _ _ _ _ _ Hconv) as ->.
  rewrite bool_decide_eq_false_2 in Hrest by exact Hne. cbn [negb] in Hrest.
  destruct (PurePath.with_suffix f ".inkml") as [q|] eqn:Hq; [|discriminate].
  destruct (with_suffix_inkml _ _ Hf Hq) as [Hc _].
  rewrite (truediv_component _ _ Hc) in Hrest.
  apply bind_ok_inv in Hrest as ([] & w2 & Hren & Hret).
  injection Hret as <- <-.
  pose proof Hren as (ps & pd & v & Hps & Hpd & Hsrc & Hdst & _)%rename_ok.
  exists (PurePath.name q), wc, v. repeat split; try assumption; try reflexivity.
  - unfold OS.stat. now rewrite Hps.
  - unfold OS.stat. now rewrite Hpd.
  - intros Hdiff. unfold OS.stat. rewrite Hps.
    apply (rename_source_gone _ _ _ _ ps pd Hren Hps Hpd).
    assert (ps = PurePath.Path (inkml_path_of (PurePath.str f))) as ->.
    { unfold OS.resolve in Hps. destruct (Str.truthy _); congruence. }
    assert (pd = outp ++ [PurePath.name q]) as ->; [|exact Hdiff].
    unfold OS.resolve in Hpd. destruct (Str.truthy _); [|discriminate].
    injection Hpd as <-. apply Path_str. now apply wf_snoc.
Qed.









(** C8. Without an output directory, and with no regular file in the way,
    batch conversion first makes the input directory itself, missing parents
    included: the scan and the loop start in a world in which the input
    path and each of its ancestors is a directory, and that world is the
    initial one when the directory was already there. *)
Theorem input_directory_created_first
    (self : InkMLConverter) (input_dir : string) (w : World) :
  let input_path := PurePath.Path input_dir in
  (forall k,
     FS.is_file (FS.lookup_path (List.firstn k input_path) (root_node w)) = false) ->
  exists w1,
    OS.mkdir_parents_exist_ok input_path w = (Ok tt, w1) /\
    FS.is_dir (FS.lookup_path input_path (root_node w1)) = true /\
    (forall k,
       FS.is_dir (FS.lookup_path (List.firstn k input_path) (root_node w1)) = true) /\
    (FS.is_dir (FS.lookup_path input_path (root_node w)) = true -> w1 = w) /\
    batch_convert_directory self input_dir None w =
      for_each (scan (files w1) input_path "*.txt") []
               (batch_body self input_path input_path) w1.
Proof.
  intros input_path Hfree.
  destruct (mkdir_succeeds _ _ Hfree) as [w1 Hmk]. exists w1.
  split; [exact Hmk|]. split; [exact (mkdir_ok_self _ _ _ Hmk)|].
  split; [exact (proj1 (mkdir_ok _ _ _ Hmk))|]. split.
  - intros Hdir. rewrite (mkdir_existing _ _ Hdir) in Hmk. now injection Hmk.
  - exact (batch_after_mkdir self input_dir None w w1 Hmk).
Qed.

End BatchClaims.

(** ** The claims at work on the reference environment *)

Lemma derived_output_path_witness :
  Str.contains "." "txt" = false /\
  inkml_path_of "data/a.txt" = "data/a.inkml".
Proof.
  split; [reflexivity|].
  exact (proj1 (@derived_output_path_replaces_extension Demo.env Demo.conv "data/a" "txt"
                  eq_refl eq_refl eq_refl)).
Defined.


Lemma temporary_file_left_witness :
  OS.stat "/tmp/tmpk3v9x2ab.txt" Demo.w0 = None /\
  exists w',
    @convert_from_string Scenarios.env_ascii Demo.conv Scenarios.latin_text None Demo.w0
      = (Err (UnicodeEncodeError "'ascii' codec can't encode character"), w') /\
    OS.stat "/tmp/tmpk3v9x2ab.txt" w' = Some (File "").
Proof.
  destruct (@temporary_file_left_when_write_fails Scenarios.env_ascii Demo.conv
              Scenarios.latin_text None Demo.w0
              (snd (@NamedTemporaryFile Scenarios.env_ascii ".txt" Demo.w0))
              "/tmp/tmpk3v9x2ab.txt"
              (UnicodeEncodeError "'ascii' codec can't encode character"))
    as (Hfree & Hcall & Hleft).
  - vm_compute. reflexivity.
  - vm_compute. reflexivity.
  - split; [exact Hfree|]. eexists. split; [exact Hcall | exact Hleft].
Defined.


Lemma init_missing_script_witness :
  FS.lookup_path (PurePath.Path "/srv/app/missing.ts") (root_node Demo.w0) = None /\
  @__init__ Demo.env (Some "/srv/app/missing.ts") Demo.w0
    = (Err (FileNotFoundError "Converter script not found: /srv/app/missing.ts"), Demo.w0).
Proof.
  split; [reflexivity|].
  exact (proj1 (init_requires_existing_script Demo.env Demo.w0 "/srv/app/missing.ts" eq_refl)).
Defined.


Lemma returned_path_witness :
  @convert_txt_to_inkml Demo.env Demo.conv "data/a.txt" Demo.w0
    = (Ok "data/a.inkml",
       mkWorld (snd (Demo.run ["npx"; "tsx"; converter_script Demo.conv; "data/a.txt"] Demo.fs0))
               []) /\
  @convert_txt_to_inkml Demo.env_silent Demo.conv "data/a.txt" Demo.w0
    = (Ok "data/a.inkml", mkWorld Demo.fs0 []).
Proof.
  apply (returned_path_is_not_checked Demo.env Demo.env_silent Demo.conv "data/a.txt"
           Demo.w0 Demo.w0 "ok" "" "" ""
           (snd (Demo.run ["npx"; "tsx"; converter_script Demo.conv; "data/a.txt"] Demo.fs0))
           Demo.fs0).
  - vm_compute. reflexivity.
  - reflexivity.
Defined.

Lemma input_directory_created_witness :
  exists w1,
    OS.mkdir_parents_exist_ok (PurePath.Path "fresh/dir") Demo.w0 = (Ok tt, w1) /\
    FS.is_dir (FS.lookup_path ["fresh"; "dir"] (root_node w1)) = true /\
    FS.lookup_path ["fresh"] (root_node Demo.w0) = None.
Proof.
  destruct (@input_directory_created_first Demo.env Demo.conv "fresh/dir" Demo.w0)
    as (w1 & Hmk & Hdir & _).
  - intros k. destruct k as [|[|[|k]]]; reflexivity.
  - exists w1. split; [exact Hmk|]. split; [exact Hdir|reflexivity].
Defined.

Lemma labelled_output_path_witness :
  fst (@convert_from_string Demo.env Demo.conv "5 6" (Some "lbl") Demo.w0)
    = Ok "/tmp/tmpk3v9x2ab_lbl.inkml" /\
  PurePath.parent (PurePath.Path "/tmp/tmpk3v9x2ab_lbl.inkml") = ["/"; "tmp"] /\
  PurePath.name (PurePath.Path "/tmp/tmpk3v9x2ab_lbl.inkml") = "tmpk3v9x2ab_lbl.inkml".
Proof.
  split; [vm_compute; reflexivity|].
  destruct (@labelled_output_path Demo.env Demo.conv "5 6" "lbl" ["/"; "tmp"] "tmpk3v9x2ab"
              Demo.w0
              (snd (@convert_from_string Demo.env Demo.conv "5 6" (Some "lbl") Demo.w0))
              "/tmp/tmpk3v9x2ab_lbl.inkml")
    as (_ & _ & Hparent & Hname & _).
  - reflexivity.
  - reflexivity.
  - reflexivity.
  - reflexivity.
  - reflexivity.
  - apply injective_projections; [vm_compute; reflexivity | reflexivity].
  - split; assumption.
Defined.

Lemma output_names_agree_witness :
  PurePath.name ["data"; "sub"; "c.txt"] = "c" +:+ ".txt" /\
  names_agree ["data"; "sub"; "c.txt"].
Proof.
  split; [reflexivity|].
  exact (proj2 (proj2 (output_names_agree_on_txt_files ["data"; "sub"; "c.txt"] "c"
                         eq_refl eq_refl eq_refl))).
Defined.

(** ** Where the claims as stated fail *)



(** * Further properties of the module *)

(** ** The constructor and the derived output path *)

Section ConstructorFacts.

Import StrFacts PathFacts PathFacts2 PathFacts3 FSFacts OSFacts.

Context {env : Environment}.

(** X1. Given a non-empty path at which something exists, the constructor
    returns a converter that holds exactly that path, and leaves the world
    as it was. *)
Theorem init_accepts_existing_script (p : string) (w : World) :
  Str.truthy p = true ->
  is_Some (FS.lookup_path (PurePath.Path p) (root_node w)) ->
  __init__ (Some p) w = (Ok (mkConverter p), w).
Proof.
  intros Hp Hex.
  unfold __init__, bind, OS.Path_exists, py_or. rewrite Hp.
  now rewrite bool_decide_eq_true_2 by exact Hex.
Qed.

(** X2. The default script is the sibling of the module file: with the
    module file named [nm] in the directory [d], and a node present at
    [d/convert_txt_to_inkml.ts], constructing without a path, and just the
    same constructing with the empty string, gives a converter for that
    sibling. *)
Theorem init_default_is_sibling (d : PurePath.t) (nm : string) (w : World) :
  module_file = PurePath.str (d ++ [nm]) ->
  wf_path d = true ->
  component nm = true ->
  is_Some (FS.lookup_path (d ++ ["convert_txt_to_inkml.ts"]) (root_node w)) ->
  let sibling := PurePath.str (d ++ ["convert_txt_to_inkml.ts"]) in
  __init__ None w = (Ok (mkConverter sibling), w) /\
  __init__ (Some "") w = (Ok (mkConverter sibling), w) /\
  PurePath.parent (PurePath.Path sibling) = PurePath.parent (PurePath.Path module_file).
Proof.
  intros Hfile Hd Hnm Hex sibling.
  assert (component "convert_txt_to_inkml.ts" = true) as Hts by reflexivity.
  assert (PurePath.Path module_file = d ++ [nm]) as HP
    by (rewrite Hfile; apply Path_str; now apply wf_snoc).
  assert (PurePath.Path sibling = d ++ ["convert_txt_to_inkml.ts"]) as HS
    by (apply Path_str; now apply wf_snoc).
  assert (__init__ None w = (Ok (mkConverter sibling), w)) as Hnone.
  { unfold __init__, bind, OS.Path_exists, py_or.
    rewrite HP, (parent_snoc _ _ Hnm), (truediv_component _ _ Hts).
    fold sibling. rewrite HS.
    now rewrite bool_decide_eq_true_2 by exact Hex. }
  split; [exact Hnone|]. split; [exact Hnone|].
  now rewrite HS, HP, !parent_snoc.
Qed.

(** X3. A path without any dot has nothing to replace: the derived output
    path is the whole input path with [".inkml"] appended. *)
Theorem inkml_path_without_dot (p : string) :
  Str.contains "." p = false ->
  inkml_path_of p = p +:+ ".inkml" /\
  forall self w r w', convert_txt_to_inkml self p w = (Ok r, w') -> r = p +:+ ".inkml".
Proof.
  intros Hp.
  assert (inkml_path_of p = p +:+ ".inkml") as E
    by (unfold inkml_path_of, Str.rsplit1; now rewrite (rpartition_none _ _ Hp)).
  split; [exact E|].
  intros self w r w' H. apply convert_txt_to_inkml_returns in H. congruence.
Qed.

(** X4. Deriving the output path is idempotent: the output path of an
    output path is that same path, so converting a file named [x.inkml]
    would name its own input as the output. *)
Theorem inkml_path_of_idempotent (p : string) :
  inkml_path_of (inkml_path_of p) = inkml_path_of p.
Proof.
  unfold inkml_path_of at 2 3.
  change ".inkml" with ("." +:+ "inkml").
  now apply inkml_path_of_ext.
Qed.

End ConstructorFacts.

(** ** Single-file and string-content conversion *)

Module ExtraFacts.

Import FSFacts OSFacts.

Lemma diverge_snoc (d : list string) (x y : string) :
  x <> y -> diverge (d ++ [x]) (d ++ [y]).
Proof.
  intros Hne. induction d as [|a d IH]; cbn; [now constructor|now apply diverge_later].
Qed.

Lemma diverge_neq (p q : list string) : diverge p q -> p <> q.
Proof.
  induction 1 as [x y p q Hne | x p q Hd IH]; intros E; injection E; auto.
Qed.

(** Unlinking one path leaves what is found at a path that diverges from
    it. *)
Lemma lookup_unlink_diverge p q n n' :
  diverge p q -> FS.unlink q n = Some n' -> FS.lookup_path p n' = FS.lookup_path p n.
Proof.
  intros Hd. revert n n'. induction Hd as [x y p q Hne | x p q Hd IH]; intros n n'; cbn.
  - destruct n as [c|ch]; [discriminate|]. destruct q as [|z q].
    + intros [= <-]. now rewrite lookup_delete_ne.
    + destruct (ch !! y); [|discriminate]. destruct (FS.unlink _ _); [|discriminate].
      intros [= <-]. now rewrite lookup_insert_ne.
  - destruct n as [c|ch]; [discriminate|]. destruct q as [|z q]; [inversion Hd|].
    destruct (ch !! x) as [c|] eqn:E; [|discriminate].
    destruct (FS.unlink (z :: q) c) as [c'|] eqn:Hu; [|discriminate].
    intros [= <-]. rewrite lookup_insert_eq. now apply IH.
Qed.

Lemma remove_stdout s w r w' : OS.remove s w = (r, w') -> stdout w' = stdout w.
Proof.
  unfold OS.remove. intros H. repeat case_match; simplify_eq; reflexivity.
Qed.

Lemma guarded_remove_stdout s w r w' :
  (present <- OS.path_exists s ;; if present then OS.remove s else ret tt) w = (r, w') ->
  stdout w' = stdout w.
Proof.
  unfold bind, OS.path_exists, ret. case_bool_decide.
  - apply remove_stdout.
  - now intros [= <- <-].
Qed.

(** The guarded removal, seen from the path it removes: a regular file is
    unlinked, and nothing else is touched when nothing is there. *)
Lemma guarded_remove_file s w c :
  OS.stat s w = Some (File c) ->
  exists p ch,
    OS.resolve s = Some p /\
    FS.unlink p (root_node w) = Some (Dir ch) /\
    (present <- OS.path_exists s ;; if present then OS.remove s else ret tt) w
    = (Ok tt, with_root w (Dir ch)).
Proof.
  intros Hs. unfold bind, OS.path_exists, OS.remove, ret.
  rewrite bool_decide_eq_true_2 by (rewrite Hs; eauto). rewrite Hs.
  unfold OS.stat in Hs. destruct (OS.resolve s) as [p|]; [|discriminate].
  destruct (unlink_is_Some p (root_node w)) as [n Hn].
  - intros ->. discriminate.
  - rewrite Hs. eauto.
  - destruct (unlink_dir _ _ _ Hn) as [ch ->]. rewrite Hn. eauto.
Qed.

Lemma guarded_remove_absent s w :
  OS.stat s w = None ->
  (present <- OS.path_exists s ;; if present then OS.remove s else ret tt) w = (Ok tt, w).
Proof.
  intros Hs. unfold bind, OS.path_exists, ret.
  rewrite bool_decide_eq_false_2; [reflexivity|]. rewrite Hs. now intros [? ?].
Qed.

End ExtraFacts.

Section ConversionFacts.

Import StrFacts PathFacts PathFacts2 PathFacts3 FSFacts OSFacts ExtraFacts.

Context {env : Environment}.

Lemma NamedTemporaryFile_write_stdout sfx content w r w' :
  NamedTemporaryFile_write sfx content w = (r, w') -> stdout w' = stdout w.
Proof.
  unfold NamedTemporaryFile_write, bind, NamedTemporaryFile, file_write, ret. intros H.
  repeat case_match; simplify_eq; reflexivity.
Qed.

(** What string-content conversion does once its temporary file is there. *)
Lemma convert_from_string_unfold self txt_content output_filename w tmp w0 :
  NamedTemporaryFile_write ".txt" txt_content w = (Ok tmp, w0) ->
  convert_from_string self txt_content output_filename w =
  try_finally
    (inkml_path <- convert_txt_to_inkml self tmp ;;
     match output_filename with
     | Some label =>
         if Str.truthy label then
           OS.rename inkml_path
             (List.nth 0 (Str.rsplit1 "." tmp) "" +:+ "_" +:+ label +:+ ".inkml") ;;;
           ret (List.nth 0 (Str.rsplit1 "." tmp) "" +:+ "_" +:+ label +:+ ".inkml")
         else ret inkml_path
     | None => ret inkml_path
     end)
    (present <- OS.path_exists tmp ;; if present then OS.remove tmp else ret tt) w0.
Proof.
  intros Hcreate. unfold convert_from_string, bind at 1. now rewrite Hcreate.
Qed.

Lemma inkml_path_of_truthy p : Str.truthy (inkml_path_of p) = true.
Proof. unfold inkml_path_of. now apply truthy_app_r. Qed.

(** X5. Only a non-zero exit is turned into a conversion failure: when the
    converter process cannot be started at all, the [OSError] of
    [subprocess.run] leaves single-file conversion as it is, not wrapped
    into "Conversion failed". *)
Theorem unstartable_process_propagates
    (self : InkMLConverter) (p : string) (w : World)
    (reason : string) (fs' : gmap string node) :
  run_process ["npx"; "tsx"; converter_script self; p] (files w) = (NotStarted reason, fs') ->
  convert_txt_to_inkml self p w = (Err (OSError reason), mkWorld fs' (stdout w)).
Proof.
  intros Hrun. now rewrite convert_txt_to_inkml_unfold, Hrun.
Qed.

(** X6. Neither single-file conversion nor string-content conversion ever
    prints: whatever they return or raise, the lines printed so far are the
    same afterwards. *)
Theorem conversions_print_nothing
    (self : InkMLConverter) (p txt_content : string) (output_filename : option string)
    (w : World) :
  stdout (snd (convert_txt_to_inkml self p w)) = stdout w /\
  stdout (snd (convert_from_string self txt_content output_filename w)) = stdout w.
Proof.
  split.
  - destruct (convert_txt_to_inkml self p w) as [r w'] eqn:E.
    exact (convert_txt_to_inkml_stdout _ _ _ _ _ E).
  - unfold convert_from_string, bind at 1.
    destruct (NamedTemporaryFile_write ".txt" txt_content w) as [[tmp|e] w0] eqn:Hc;
      apply NamedTemporaryFile_write_stdout in Hc; [|exact Hc].
    unfold try_finally.
    destruct (bind (convert_txt_to_inkml self tmp) _ w0) as [r0 w1] eqn:Hbody.
    assert (stdout w1 = stdout w0) as H1.
    { unfold bind in Hbody.
      destruct (convert_txt_to_inkml self tmp w0) as [[ink|e] w2] eqn:Hconv;
        apply convert_txt_to_inkml_stdout in Hconv.
      - destruct output_filename as [label|].
        + destruct (Str.truthy label).
          * destruct (OS.rename _ _ w2) as [[[]|e] w3] eqn:Hren;
              apply rename_stdout in Hren; unfold ret in Hbody;
              injection Hbody as _ <-; congruence.
          * unfold ret in Hbody. injection Hbody as _ <-. exact Hconv.
        + unfold ret in Hbody. injection Hbody as _ <-. exact Hconv.
      - injection Hbody as _ <-. exact Hconv. }
    destruct (bind (OS.path_exists tmp) _ w1) as [rc w2] eqn:Hclean.
    apply guarded_remove_stdout in Hclean.
    destruct rc as [[]|e]; cbn [snd]; congruence.
Qed.

(** X7. An empty label is no label: the call is the unlabelled one, and
    the unlabelled call returns, whenever it returns, the name of the
    temporary file with [".txt"] replaced by [".inkml"]. *)
Theorem unlabelled_string_conversion
    (self : InkMLConverter) (txt_content stem : string) (w : World) :
  mkstemp_name (files w) ".txt" = stem +:+ ".txt" ->
  convert_from_string self txt_content (Some "") w
    = convert_from_string self txt_content None w /\
  forall r w',
    convert_from_string self txt_content None w = (Ok r, w') -> r = stem +:+ ".inkml".
Proof.
  intros Htmp. split; [reflexivity|].
  intros r w' Hcall. unfold convert_from_string in Hcall.
  apply bind_ok_inv in Hcall as (tmp & w0 & Hcreate & Hcall).
  apply NamedTemporaryFile_write_ok in Hcreate as [-> _].
  apply try_finally_ok_inv in Hcall as (w1 & Hbody & _).
  apply bind_ok_inv in Hbody as (ink & w2 & Hconv & Hret).
  injection Hret as <- _.
  apply convert_txt_to_inkml_returns in Hconv as ->.
  rewrite Htmp. now apply (inkml_path_of_ext stem "txt").
Qed.

(** X8. A failed conversion survives the cleanup: when the converter exits
    with a non-zero status on the temporary file and has not put a directory
    in its place, string-content conversion raises that very conversion
    failure, with the captured error text, and the temporary file is gone. *)
Theorem conversion_failure_survives_cleanup
    (self : InkMLConverter) (txt_content : string) (output_filename : option string)
    (w w0 : World) (tmp : string) (rc : Z) (out err : string) (fs1 : gmap string node) :
  NamedTemporaryFile_write ".txt" txt_content w = (Ok tmp, w0) ->
  run_process ["npx"; "tsx"; converter_script self; tmp] (files w0)
    = (Exited rc out err, fs1) ->
  rc <> 0%Z ->
  FS.is_dir (OS.stat tmp (mkWorld fs1 (stdout w0))) = false ->
  exists w',
    convert_from_string self txt_content output_filename w
      = (Err (Exception ("Conversion failed: " +:+ err)), w') /\
    OS.stat tmp w' = None.
Proof.
  intros Hcreate Hrun Hrc Hdir.
  rewrite (convert_from_string_unfold _ _ _ _ _ _ Hcreate).
  unfold try_finally, bind at 1.
  rewrite convert_txt_to_inkml_unfold, Hrun.
  apply Z.eqb_neq in Hrc. rewrite Hrc.
  set (w1 := mkWorld fs1 (stdout w0)) in *.
  destruct (OS.stat tmp w1) as [[c|ch]|] eqn:Hstat; [| discriminate Hdir |].
  - destruct (guarded_remove_file _ _ _ Hstat) as (p & ch & Hp & Hu & ->).
    eexists. split; [reflexivity|].
    unfold OS.stat. rewrite Hp, root_node_with_root.
    exact (lookup_unlink_same _ _ _ Hu).
  - rewrite (guarded_remove_absent _ _ Hstat). eauto.
Qed.

(** Renaming a path at which nothing exists raises [FileNotFoundError] and
    changes nothing. *)
Lemma rename_missing_source src dst w :
  Str.truthy src = true -> Str.truthy dst = true ->
  OS.stat src w = None ->
  OS.rename src dst w = (Err (OS.enoent (src +:+ "' -> '" +:+ dst)), w).
Proof.
  intros Hsrc Hdst. unfold OS.stat, OS.rename, OS.resolve. rewrite Hsrc, Hdst.
  now intros ->.
Qed.

(** X9. A label makes the call depend on the output file: when the
    converter exits with status zero but has left nothing at the derived
    path, the labelled call raises the [FileNotFoundError] of [os.rename]
    (and still removes the temporary file), while the unlabelled call
    returns the derived path. *)
Theorem label_requires_output_file
    (self : InkMLConverter) (txt_content label : string)
    (w w0 : World) (tmp : string) (out err : string) (fs1 : gmap string node) :
  NamedTemporaryFile_write ".txt" txt_content w = (Ok tmp, w0) ->
  run_process ["npx"; "tsx"; converter_script self; tmp] (files w0)
    = (Exited 0 out err, fs1) ->
  OS.stat (inkml_path_of tmp) (mkWorld fs1 (stdout w0)) = None ->
  FS.is_dir (OS.stat tmp (mkWorld fs1 (stdout w0))) = false ->
  Str.truthy label = true ->
  (exists msg w',
     convert_from_string self txt_content (Some label) w
       = (Err (FileNotFoundError msg), w') /\
     OS.stat tmp w' = None) /\
  fst (convert_from_string self txt_content None w) = Ok (inkml_path_of tmp).
Proof.
  intros Hcreate Hrun Hout Hdir Hlabel.
  set (w1 := mkWorld fs1 (stdout w0)) in *.
  assert (forall k : string -> M string,
            bind (convert_txt_to_inkml self tmp) k w0 = k (inkml_path_of tmp) w1) as Hbind.
  { intros k. unfold bind. now rewrite convert_txt_to_inkml_unfold, Hrun. }
  rewrite !(convert_from_string_unfold _ _ _ _ _ _ Hcreate).
  unfold try_finally. rewrite !Hbind, Hlabel.
  unfold bind at 1.
  rewrite rename_missing_source;
    [| apply inkml_path_of_truthy | apply truthy_app_r; reflexivity | exact Hout].
  unfold ret at 2.
  destruct (OS.stat tmp w1) as [[c|ch]|] eqn:Hstat; [| discriminate Hdir |].
  - destruct (guarded_remove_file _ _ _ Hstat) as (p & ch & Hp & Hu & ->).
    split; [|reflexivity]. eexists _, _. split; [reflexivity|].
    unfold OS.stat. rewrite Hp, root_node_with_root.
    exact (lookup_unlink_same _ _ _ Hu).
  - rewrite (guarded_remove_absent _ _ Hstat).
    split; [|reflexivity]. eexists _, _. split; [reflexivity|exact Hstat].
Qed.

(** X15. Once the temporary file has been written, the [finally] clause
    does its work on every way out of the [try] body: whatever the body
    (conversion, and the rename when a label is given) returns or raises,
    the call returns or raises the same, and the temporary file, which held
    the text while the body ran, is gone afterwards, provided the converter
    has not put a directory in its place. *)
Theorem temporary_file_removed_after_conversion
    (self : InkMLConverter) (txt_content : string) (output_filename : option string)
    (w w0 w1 : World) (tmp : string) (r0 : result string) :
  NamedTemporaryFile_write ".txt" txt_content w = (Ok tmp, w0) ->
  (inkml_path <- convert_txt_to_inkml self tmp ;;
   match output_filename with
   | Some label =>
       if Str.truthy label then
         OS.rename inkml_path
           (List.nth 0 (Str.rsplit1 "." tmp) "" +:+ "_" +:+ label +:+ ".inkml") ;;;
         ret (List.nth 0 (Str.rsplit1 "." tmp) "" +:+ "_" +:+ label +:+ ".inkml")
       else ret inkml_path
   | None => ret inkml_path
   end) w0 = (r0, w1) ->
  FS.is_dir (OS.stat tmp w1) = false ->
  OS.stat tmp w0 = Some (File txt_content) /\
  exists w',
    convert_from_string self txt_content output_filename w = (r0, w') /\
    OS.stat tmp w' = None.
Proof.
  intros Hcreate Hbody Hdir.
  split; [exact (proj2 (NamedTemporaryFile_write_ok _ _ _ _ _ Hcreate))|].
  rewrite (convert_from_string_unfold _ _ _ _ _ _ Hcreate).
  unfold try_finally. rewrite Hbody.
  destruct (OS.stat tmp w1) as [[c|ch]|] eqn:Hstat; [| discriminate Hdir |].
  - destruct (guarded_remove_file _ _ _ Hstat) as (p & ch & Hp & Hu & ->).
    eexists. split; [reflexivity|].
    unfold OS.stat. rewrite Hp, root_node_with_root.
    exact (lookup_unlink_same _ _ _ Hu).
  - rewrite (guarded_remove_absent _ _ Hstat). eauto.
Qed.

End ConversionFacts.

Section LabelledMove.

Import StrFacts PathFacts PathFacts2 PathFacts3 FSFacts OSFacts ExtraFacts.

Context {env : Environment}.

(** X10. A labelled call that returns has moved the output: the node the
    converter left at the derived path [d/base.inkml] is found at the
    returned path [d/base_label.inkml], and nothing is left at the derived
    path. *)
Theorem labelled_output_is_moved
    (self : InkMLConverter) (txt_content label : string)
    (d : PurePath.t) (base : string) (w w' : World) (r : string) :
  mkstemp_name (files w) ".txt" = PurePath.str (d ++ [base +:+ ".txt"]) ->
  wf_path d = true ->
  Str.contains "/" base = false ->
  Str.truthy label = true ->
  Str.contains "/" label = false ->
  convert_from_string self txt_content (Some label) w = (Ok r, w') ->
  let tmp := mkstemp_name (files w) ".txt" in
  exists w0 w1 v,
    NamedTemporaryFile_write ".txt" txt_content w = (Ok tmp, w0) /\
    convert_txt_to_inkml self tmp w0 = (Ok (inkml_path_of tmp), w1) /\
    OS.stat (inkml_path_of tmp) w1 = Some v /\
    OS.stat r w' = Some v /\
    OS.stat (inkml_path_of tmp) w' = None.
Proof.
  intros Htmp Hd Hbase Hlabel Hslash Hcall tmp.
  assert (component (base +:+ ".txt") = true) as Htxt
    by (apply component_ext; [assumption | reflexivity | cbn; lia]).
  assert (component (base +:+ ".inkml") = true) as Hink
    by (apply component_ext; [assumption | reflexivity | cbn; lia]).
  assert (component (base +:+ "_" +:+ label +:+ ".inkml") = true) as Hout.
  { apply component_ext; [assumption | | ].
    - now rewrite !contains_app, Hslash.
    - rewrite !length_app. cbn. lia. }
  assert (PurePath.Path tmp = d ++ [base +:+ ".txt"]) as HPtmp
    by (unfold tmp; rewrite Htmp; apply Path_str; now apply wf_snoc).
  assert (PurePath.Path (inkml_path_of tmp) = d ++ [base +:+ ".inkml"]) as HPink
    by (unfold tmp; rewrite Htmp; now apply Path_inkml_path_of).
  (* the run, step by step *)
  unfold convert_from_string in Hcall.
  apply bind_ok_inv in Hcall as (tmp' & w0 & Hcreate & Hcall).
  pose proof (NamedTemporaryFile_write_ok _ _ _ _ _ Hcreate) as [-> _]. fold tmp in Hcreate, Hcall.
  apply try_finally_ok_inv in Hcall as (w3 & Hbody & Hclean).
  apply bind_ok_inv in Hbody as (ink & w1 & Hconv & Hbody).
  pose proof (convert_txt_to_inkml_returns _ _ _ _ _ Hconv) as ->.
  rewrite Hlabel in Hbody.
  apply bind_ok_inv in Hbody as ([] & w2 & Hren & Hret).
  injection Hret as <- <-.
  set (new := List.nth 0 (Str.rsplit1 "." tmp) "" +:+ "_" +:+ label +:+ ".inkml") in *.
  assert (PurePath.Path new = d ++ [base +:+ "_" +:+ label +:+ ".inkml"]) as HPnew.
  { destruct (str_snoc d) as [pre Hpre].
    assert (new = PurePath.str (d ++ [base +:+ "_" +:+ label +:+ ".inkml"])) as ->.
    { unfold new, tmp. rewrite Htmp, (Hpre _ Htxt), (Hpre _ Hout). unfold Str.rsplit1.
      replace (pre +:+ base +:+ ".txt") with ((pre +:+ base) +:+ String "." "txt")
        by (now rewrite app_assoc).
      rewrite rpartition_last by reflexivity. cbn [nth]. now rewrite app_assoc. }
    apply Path_str. now apply wf_snoc. }
  (* the move *)
  pose proof Hren as (ps & pd & v & Hps & Hpd & Hsrc & Hdst & _)%rename_ok.
  assert (ps = d ++ [base +:+ ".inkml"]) as Eps.
  { unfold OS.resolve in Hps. rewrite inkml_path_of_truthy in Hps. congruence. }
  assert (pd = d ++ [base +:+ "_" +:+ label +:+ ".inkml"]) as Epd.
  { unfold OS.resolve in Hpd. destruct (Str.truthy new); congruence. }
  assert (base +:+ ".inkml" <> base +:+ "_" +:+ label +:+ ".inkml") as Hne1.
  { intros E. apply String.app_inj in E. discriminate E. }
  assert (base +:+ ".inkml" <> base +:+ ".txt") as Hne2.
  { intros E. apply String.app_inj in E. discriminate E. }
  assert (base +:+ "_" +:+ label +:+ ".inkml" <> base +:+ ".txt") as Hne3.
  { intros E. apply String.app_inj in E. discriminate E. }
  assert (FS.lookup_path ps (root_node w2) = None) as Hgone.
  { apply (rename_source_gone _ _ _ _ ps pd Hren Hps Hpd).
    rewrite Eps, Epd. apply diverge_neq, diverge_snoc, Hne1. }
  (* the cleanup touches neither path *)
  assert (FS.lookup_path ps (root_node w') = FS.lookup_path ps (root_node w2) /\
          FS.lookup_path pd (root_node w') = FS.lookup_path pd (root_node w2)) as [Eps' Epd'].
  { destruct (OS.stat tmp w2) as [[c|ch]|] eqn:Hstat.
    - destruct (guarded_remove_file _ _ _ Hstat) as (p & ch & Hp & Hu & Hrun).
      rewrite Hrun in Hclean. injection Hclean as <-.
      assert (p = d ++ [base +:+ ".txt"]) as ->.
      { unfold OS.resolve in Hp. destruct (Str.truthy tmp); congruence. }
      rewrite root_node_with_root, Eps, Epd. split.
      + apply (lookup_unlink_diverge _ _ _ _ (diverge_snoc d _ _ Hne2) Hu).
      + apply (lookup_unlink_diverge _ _ _ _ (diverge_snoc d _ _ Hne3) Hu).
    - exfalso. unfold bind, OS.path_exists, OS.remove in Hclean.
      rewrite bool_decide_eq_true_2 in Hclean by (rewrite Hstat; eauto).
      rewrite Hstat in Hclean. destruct (OS.resolve tmp); discriminate Hclean.
    - rewrite (guarded_remove_absent _ _ Hstat) in Hclean.
      injection Hclean as <-. now split. }
  exists w0, w1, v. split; [exact Hcreate|]. split; [exact Hconv|].
  split; [unfold OS.stat; now rewrite Hps|].
  split; unfold OS.stat; [rewrite Hpd | rewrite Hps]; congruence.
Qed.

End LabelledMove.

(** ** Batch conversion, further *)

Module BatchExtraFacts.

Import StrFacts PathFacts.

(** A regular file on the way stops [mkdirs]: [EEXIST] when it sits at the
    path itself, [ENOTDIR] when it sits above. *)
Lemma mkdirs_blocked whole p n k :
  FS.is_file (FS.lookup_path (List.firstn k p) n) = true ->
  exists msg,
    FS.mkdirs whole p n = Err (FileExistsError msg) \/
    FS.mkdirs whole p n = Err (NotADirectoryError msg).
Proof.
  revert n k. induction p as [|x p IH]; intros n k H.
  - rewrite firstn_nil in H. cbn in H. destruct n; [|discriminate]. cbn. eauto.
  - destruct n as [c|ch]; [cbn; eauto|].
    destruct k as [|k]; [discriminate H|].
    cbn [firstn FS.lookup_path] in H.
    destruct (ch !! x) as [c|] eqn:E; [|discriminate H].
    destruct (IH c k H) as [msg [Hm | Hm]]; exists msg; [left | right];
      cbn; rewrite E; cbn; now rewrite Hm.
Qed.

Lemma name_snoc_inkml (l : list string) (s : string) :
  PurePath.name (l ++ [s +:+ ".inkml"]) = s +:+ ".inkml".
Proof.
  assert (PurePath.is_root (s +:+ ".inkml") = false) as Hroot.
  { unfold PurePath.is_root. apply orb_false_iff.
    split; apply String.eqb_neq; intros E; apply (f_equal String.length) in E;
      rewrite length_app in E; cbn in E; lia. }
  unfold PurePath.name. destruct l as [|r rest].
  - cbn. now rewrite Hroot.
  - replace (List.length ((r :: rest) ++ [s +:+ ".inkml"]) =? _)%nat with false.
    + apply last_last.
    + symmetry. apply Nat.eqb_neq. rewrite List.length_app. cbn.
      destruct (PurePath.is_root r); lia.
Qed.

(** The name that [with_suffix] gives depends on the name of the path
    only. *)
Lemma with_suffix_name_only (f1 f2 : PurePath.t) :
  PurePath.name f1 = PurePath.name f2 ->
  option_map PurePath.name (PurePath.with_suffix f1 ".inkml")
  = option_map PurePath.name (PurePath.with_suffix f2 ".inkml").
Proof.
  intros Hname. unfold PurePath.with_suffix, PurePath.suffix. rewrite Hname.
  destruct (Str.contains "/" ".inkml"); [reflexivity|].
  destruct (_ || _); [reflexivity|].
  destruct (negb (Str.truthy (PurePath.name f2))); [reflexivity|].
  cbn [option_map].
  destruct (negb _); now rewrite !name_snoc_inkml.
Qed.

End BatchExtraFacts.

Section BatchExtras.

Import StrFacts PathFacts PathFacts2 PathFacts3 FSFacts OSFacts BatchExtraFacts.

Context {env : Environment}.

(** X11. When a regular file sits at the output path or above it, batch
    conversion raises the [FileExistsError] or [NotADirectoryError] of
    [mkdir] at once: no file is scanned or converted, nothing is printed and
    the world is as before. *)
Theorem batch_blocked_output_directory
    (self : InkMLConverter) (input_dir : string) (output_dir : option string)
    (w : World) (k : nat) :
  let input_path := PurePath.Path input_dir in
  let output_path :=
    match output_dir with
    | Some o => if Str.truthy o then PurePath.Path o else input_path
    | None => input_path
    end in
  FS.is_file (FS.lookup_path (List.firstn k output_path) (root_node w)) = true ->
  exists msg,
    batch_convert_directory self input_dir output_dir w = (Err (FileExistsError msg), w) \/
    batch_convert_directory self input_dir output_dir w = (Err (NotADirectoryError msg), w).
Proof.
  intros input_path output_path Hfile.
  destruct (mkdirs_blocked (PurePath.str output_path) _ _ _ Hfile) as [msg Hm].
  assert (forall e,
            FS.mkdirs (PurePath.str output_path) output_path (root_node w) = Err e ->
            batch_convert_directory self input_dir output_dir w = (Err e, w)) as Hraise.
  { intros e He. unfold batch_convert_directory, bind at 1, OS.mkdir_parents_exist_ok.
    fold input_path. fold output_path. now rewrite He. }
  exists msg. destruct Hm as [Hm | Hm]; [left | right]; exact (Hraise _ Hm).
Qed.

(** X12. The output directory is compared as a path, not as a string: an
    output directory that parses to the same path as the input directory
    (["data/"], ["./data"], ["data//"] for ["data"]) is no output directory,
    and the batch is the one without relocation. *)
Theorem batch_same_directory_spelling
    (self : InkMLConverter) (input_dir o : string) (w : World) :
  PurePath.Path o = PurePath.Path input_dir ->
  batch_convert_directory self input_dir (Some o) w
  = batch_convert_directory self input_dir None w.
Proof.
  intros Hsame. unfold batch_convert_directory. rewrite Hsame.
  now destruct (Str.truthy o).
Qed.

(** X13. Without an output directory, every returned path is the derived
    path of a discovered file, and for a well-formed file named [stem.txt]
    it is [stem.inkml] in the directory of that file: outputs stay beside
    their inputs. *)
Theorem batch_in_place_paths
    (self : InkMLConverter) (input_dir : string) (w w1 : World) :
  let input_path := PurePath.Path input_dir in
  let txt_files := scan (files w1) input_path "*.txt" in
  OS.mkdir_parents_exist_ok input_path w = (Ok tt, w1) ->
  exists paths w',
    batch_convert_directory self input_dir None w = (Ok paths, w') /\
    forall r, In r paths ->
      exists f,
        In f txt_files /\
        r = inkml_path_of (PurePath.str f) /\
        forall stem,
          wf_path f = true -> PurePath.name f = stem +:+ ".txt" ->
          PurePath.parent (PurePath.Path r) = PurePath.parent f /\
          PurePath.name (PurePath.Path r) = stem +:+ ".inkml".
Proof.
  intros input_path txt_files Hmk.
  pose proof (batch_after_mkdir self input_dir None w w1 Hmk) as Hbatch.
  cbv beta iota zeta in Hbatch. rewrite for_each_batch_trace in Hbatch. cbn [app] in Hbatch.
  eexists _, _. split; [exact Hbatch|].
  intros r Hr. apply converted_from_attempt in Hr as (f & wa & wb & Hf & Hatt).
  rewrite attempt_in_place in Hatt.
  apply convert_txt_to_inkml_returns in Hatt as ->.
  exists f. split; [exact Hf|]. split; [reflexivity|].
  intros stem Hwf Hname.
  destruct (name_decompose f Hwf) as (d & Hfd & Hd & Hc).
  { rewrite Hname. now apply truthy_app_r. }
  rewrite Hname in Hfd, Hc.
  assert (Str.contains "/" stem = false) as Hs.
  { apply component_inv in Hc as (_ & _ & Hc). rewrite contains_app in Hc.
    now apply orb_false_iff in Hc as [? _]. }
  assert (component (stem +:+ ".inkml") = true) as Hink
    by (apply component_ext; [assumption | reflexivity | cbn; lia]).
  rewrite Hfd at 1 3. rewrite (Path_inkml_path_of d stem Hd Hs).
  rewrite Hfd, !parent_snoc, name_snoc by assumption. now split.
Qed.

(** The destination of a relocated file depends on its name alone. *)
Lemma same_name_same_destination (output_path f1 f2 : PurePath.t) :
  PurePath.name f1 = PurePath.name f2 ->
  option_map (fun q => PurePath.str (PurePath.truediv output_path (PurePath.name q)))
             (PurePath.with_suffix f1 ".inkml")
  = option_map (fun q => PurePath.str (PurePath.truediv output_path (PurePath.name q)))
               (PurePath.with_suffix f2 ".inkml").
Proof.
  intros Hname. pose proof (with_suffix_name_only f1 f2 Hname) as H.
  destruct (PurePath.with_suffix f1 ".inkml"), (PurePath.with_suffix f2 ".inkml");
    cbn in *; congruence.
Qed.

(** A turn of the loop that appends a path is an attempt that went
    through. *)
Lemma batch_body_appends self inp outp acc f w r w' :
  batch_body self inp outp acc f w = (Ok (acc ++ [r]), w') ->
  attempt self inp outp f w = (Ok r, w').
Proof.
  rewrite batch_body_attempt. destruct (attempt self inp outp f w) as [[p|e] w1].
  - intros [= Hp <-]. apply app_inv_head in Hp. now injection Hp as <-.
  - intros [= Hacc _]. exfalso. apply (f_equal (@List.length string)) in Hacc.
    rewrite List.length_app in Hacc. cbn in Hacc. lia.
Qed.

(** X14. With an output directory, two turns of the loop on files of the
    same name, in whatever subdirectories and worlds, that both append a
    path append the same path, and after the later turn that path holds what
    the converter left for the later file: the later move replaces at the
    shared destination whatever the earlier one had put there. *)
Theorem relocation_name_collision
    (self : InkMLConverter) (input_path output_path f1 f2 : PurePath.t)
    (acc1 acc2 : list string) (w1 w1' w2 w2' : World) (r1 r2 : string) :
  output_path <> input_path ->
  wf_path output_path = true ->
  wf_path f1 = true ->
  wf_path f2 = true ->
  PurePath.name f1 = PurePath.name f2 ->
  batch_body self input_path output_path acc1 f1 w1 = (Ok (acc1 ++ [r1]), w1') ->
  batch_body self input_path output_path acc2 f2 w2 = (Ok (acc2 ++ [r2]), w2') ->
  r2 = r1 /\
  is_Some (OS.stat r1 w1') /\
  is_Some (OS.stat r1 w2') /\
  OS.stat r1 w2'
    = OS.stat (inkml_path_of (PurePath.str f2))
              (snd (convert_txt_to_inkml self (PurePath.str f2) w2)).
Proof.
  intros Hne Hout Hf1 Hf2 Hname H1%batch_body_appends H2%batch_body_appends.
  destruct (attempt_relocates _ _ _ _ _ _ _ Hne Hout Hf1 H1)
    as (nm1 & wc1 & v1 & Hnm1 & _ & -> & _ & _ & Hdst1 & _).
  destruct (attempt_relocates _ _ _ _ _ _ _ Hne Hout Hf2 H2)
    as (nm2 & wc2 & v2 & Hnm2 & _ & -> & Hconv2 & Hsrc2 & Hdst2 & _).
  assert (nm2 = nm1) as ->.
  { pose proof (with_suffix_name_only f1 f2 Hname) as E. congruence. }
  rewrite Hconv2. cbn [snd]. rewrite Hdst1, Hdst2, Hsrc2. eauto.
Qed.

End BatchExtras.

(** ** The further properties at work *)

Example twins_collide :
  let '(r, w) :=
    @batch_convert_directory Demo.env Demo.conv "data" (Some "out") Scenarios.w_twins in
  r = Ok ["out/n.inkml"; "out/n.inkml"] /\
  FS.lookup_path ["out"] (root_node w)
    = Some (Dir {[ "n.inkml" := File "<ink>1 2</ink>" ]}).
Proof. vm_compute. split; reflexivity. Qed.

Lemma init_accepts_existing_script_witness :
  @__init__ Demo.env (Some "/srv/app/convert_txt_to_inkml.ts") Demo.w0
    = (Ok (mkConverter "/srv/app/convert_txt_to_inkml.ts"), Demo.w0).
Proof.
  apply (@init_accepts_existing_script Demo.env); [reflexivity|].
  vm_compute. eauto.
Defined.

Lemma init_default_is_sibling_witness :
  @__init__ Demo.env None Demo.w0
    = (Ok (mkConverter "/srv/app/convert_txt_to_inkml.ts"), Demo.w0) /\
  @__init__ Demo.env (Some "") Demo.w0
    = (Ok (mkConverter "/srv/app/convert_txt_to_inkml.ts"), Demo.w0).
Proof.
  destruct (@init_default_is_sibling Demo.env ["/"; "srv"; "app"] "inkml_converter_wrapper.py"
              Demo.w0) as (H1 & H2 & _).
  - reflexivity.
  - reflexivity.
  - reflexivity.
  - vm_compute. eauto.
  - split; [exact H1 | exact H2].
Defined.

Lemma inkml_path_without_dot_witness :
  Str.contains "." "notes" = false /\ inkml_path_of "notes" = "notes.inkml".
Proof.
  split; [reflexivity|].
  exact (proj1 (@inkml_path_without_dot Demo.env "notes" eq_refl)).
Defined.

Lemma unstartable_process_witness :
  @convert_txt_to_inkml Scenarios.env_no_npx Demo.conv "data/a.txt" Demo.w0
    = (Err (OSError "[Errno 2] No such file or directory: 'npx'"), Demo.w0).
Proof.
  exact (@unstartable_process_propagates Scenarios.env_no_npx Demo.conv "data/a.txt" Demo.w0
           "[Errno 2] No such file or directory: 'npx'" Demo.fs0 eq_refl).
Defined.

Lemma unlabelled_string_conversion_witness :
  fst (@convert_from_string Demo.env Demo.conv "5 6" None Demo.w0)
    = Ok "/tmp/tmpk3v9x2ab.inkml" /\
  forall r w',
    @convert_from_string Demo.env Demo.conv "5 6" None Demo.w0 = (Ok r, w') ->
    r = "/tmp/tmpk3v9x2ab" +:+ ".inkml".
Proof.
  split; [vm_compute; reflexivity|].
  exact (proj2 (@unlabelled_string_conversion Demo.env Demo.conv "5 6" "/tmp/tmpk3v9x2ab"
                  Demo.w0 eq_refl)).
Defined.

Lemma conversion_failure_survives_cleanup_witness :
  exists w',
    @convert_from_string Demo.env Demo.conv "" (Some "lbl") Demo.w0
      = (Err (Exception ("Conversion failed: " +:+ "no strokes in input")), w') /\
    OS.stat "/tmp/tmpk3v9x2ab.txt" w' = None.
Proof.
  apply (@conversion_failure_survives_cleanup Demo.env Demo.conv "" (Some "lbl") Demo.w0
           (snd (@NamedTemporaryFile_write Demo.env ".txt" "" Demo.w0))
           "/tmp/tmpk3v9x2ab.txt" 1 "" "no strokes in input"
           (files (snd (@NamedTemporaryFile_write Demo.env ".txt" "" Demo.w0)))).
  - vm_compute. reflexivity.
  - vm_compute. reflexivity.
  - discriminate.
  - vm_compute. reflexivity.
Defined.

Lemma label_requires_output_file_witness :
  (exists msg w',
     @convert_from_string Demo.env_silent Demo.conv "5 6" (Some "lbl") Demo.w0
       = (Err (FileNotFoundError msg), w') /\
     OS.stat "/tmp/tmpk3v9x2ab.txt" w' = None) /\
  fst (@convert_from_string Demo.env_silent Demo.conv "5 6" None Demo.w0)
    = Ok (inkml_path_of "/tmp/tmpk3v9x2ab.txt").
Proof.
  apply (@label_requires_output_file Demo.env_silent Demo.conv "5 6" "lbl" Demo.w0
           (snd (@NamedTemporaryFile_write Demo.env_silent ".txt" "5 6" Demo.w0))
           "/tmp/tmpk3v9x2ab.txt" "" ""
           (files (snd (@NamedTemporaryFile_write Demo.env_silent ".txt" "5 6" Demo.w0)))).
  - vm_compute. reflexivity.
  - vm_compute. reflexivity.
  - vm_compute. reflexivity.
  - vm_compute. reflexivity.
  - reflexivity.
Defined.

Lemma labelled_output_is_moved_witness :
  exists v,
    OS.stat "/tmp/tmpk3v9x2ab_lbl.inkml"
      (snd (@convert_from_string Demo.env Demo.conv "5 6" (Some "lbl") Demo.w0)) = Some v /\
    OS.stat "/tmp/tmpk3v9x2ab.inkml"
      (snd (@convert_from_string Demo.env Demo.conv "5 6" (Some "lbl") Demo.w0)) = None.
Proof.
  destruct (@labelled_output_is_moved Demo.env Demo.conv "5 6" "lbl" ["/"; "tmp"] "tmpk3v9x2ab"
              Demo.w0
              (snd (@convert_from_string Demo.env Demo.conv "5 6" (Some "lbl") Demo.w0))
              "/tmp/tmpk3v9x2ab_lbl.inkml")
    as (w0 & w1 & v & _ & _ & _ & Hat & Hgone).
  - reflexivity.
  - reflexivity.
  - reflexivity.
  - reflexivity.
  - reflexivity.
  - apply injective_projections; [vm_compute; reflexivity | reflexivity].
  - exists v. split; [exact Hat | exact Hgone].
Defined.

Lemma batch_blocked_output_directory_witness :
  exists msg,
    @batch_convert_directory Demo.env Demo.conv "data" (Some "data/a.txt/out") Demo.w0
      = (Err (FileExistsError msg), Demo.w0) \/
    @batch_convert_directory Demo.env Demo.conv "data" (Some "data/a.txt/out") Demo.w0
      = (Err (NotADirectoryError msg), Demo.w0).
Proof.
  apply (@batch_blocked_output_directory Demo.env Demo.conv "data" (Some "data/a.txt/out")
           Demo.w0 2).
  vm_compute. reflexivity.
Defined.

Lemma batch_same_directory_spelling_witness :
  @batch_convert_directory Demo.env Demo.conv "data" (Some "./data//") Demo.w0
  = @batch_convert_directory Demo.env Demo.conv "data" None Demo.w0.
Proof.
  apply (@batch_same_directory_spelling Demo.env). reflexivity.
Defined.

Lemma batch_in_place_paths_witness :
  exists paths w',
    @batch_convert_directory Demo.env Demo.conv "data" None Demo.w0 = (Ok paths, w') /\
    forall r, In r paths ->
      exists f,
        In f (Demo.scan_tree
                (files (snd (OS.mkdir_parents_exist_ok (PurePath.Path "data") Demo.w0)))
                (PurePath.Path "data") "*.txt") /\
        r = inkml_path_of (PurePath.str f).
Proof.
  destruct (@batch_in_place_paths Demo.env Demo.conv "data" Demo.w0
              (snd (OS.mkdir_parents_exist_ok (PurePath.Path "data") Demo.w0)))
    as (paths & w' & Hrun & Hall).
  - vm_compute. reflexivity.
  - exists paths, w'. split; [exact Hrun|].
    intros r Hr. destruct (Hall r Hr) as (f & Hf & Hr' & _). eauto.
Defined.

Lemma relocation_name_collision_witness :
  let w1 := snd (OS.mkdir_parents_exist_ok ["out"] Scenarios.w_twins) in
  let w1' :=
    snd (@batch_body Demo.env Demo.conv ["data"] ["out"] [] ["data"; "x"; "n.txt"] w1) in
  let w2' :=
    snd (@batch_body Demo.env Demo.conv ["data"] ["out"] ["out/n.inkml"]
           ["data"; "y"; "n.txt"] w1') in
  is_Some (OS.stat "out/n.inkml" w1') /\
  OS.stat "out/n.inkml" w2'
    = OS.stat (inkml_path_of "data/y/n.txt")
              (snd (@convert_txt_to_inkml Demo.env Demo.conv "data/y/n.txt" w1')).
Proof.
  intros w1 w1' w2'.
  destruct (@relocation_name_collision Demo.env Demo.conv ["data"] ["out"]
              ["data"; "x"; "n.txt"] ["data"; "y"; "n.txt"] [] ["out/n.inkml"]
              w1 w1' w1' w2' "out/n.inkml" "out/n.inkml")
    as (_ & Hfirst & _ & Hsecond).
  - discriminate.
  - reflexivity.
  - reflexivity.
  - reflexivity.
  - reflexivity.
  - apply injective_projections; [vm_compute; reflexivity | reflexivity].
  - apply injective_projections; [vm_compute; reflexivity | reflexivity].
  - split; [exact Hfirst | exact Hsecond].
Defined.

Lemma temporary_file_removed_after_conversion_witness :
  exists r0 w',
    @convert_from_string Demo.env Demo.conv "5 6" None Demo.w0 = (r0, w') /\
    OS.stat "/tmp/tmpk3v9x2ab.txt" w' = None.
Proof.
  edestruct (@temporary_file_removed_after_conversion Demo.env Demo.conv "5 6" None Demo.w0
               (snd (@NamedTemporaryFile_write Demo.env ".txt" "5 6" Demo.w0)))
    as (_ & w' & Hcall & Hgone).
  - apply injective_projections; [vm_compute; reflexivity | reflexivity].
  - apply surjective_pairing.
  - vm_compute. reflexivity.
  - eexists _, w'. split; [exact Hcall | exact Hgone].
Defined.
